(** * Worldbook plugin: keyword-triggered knowledge injection

    A shallow embedding of [main.py] (classes [WorldbookManager] and
    [WorldbookPlugin]) and the properties of its loading, matching,
    staging and injection logic. *)

From Stdlib Require Import ZArith NArith Ascii String.
From stdpp Require Import base option list sorting gmap.

(** ** Python values *)

(** A Python [str] is a sequence of Unicode code points; [len] counts
    code points and [in] is the substring test. *)
Abbreviation pystr := (list N).

(** Literals of the source are written as UTF-8 text and decoded to code
    points. *)
Module Utf8.
Local Open Scope N_scope.

Definition cont (a : ascii) : N := N.land (N_of_ascii a) 63.

Fixpoint decode (s : string) : pystr :=
  match s with
  | EmptyString => []
  | String a r =>
      let n := N_of_ascii a in
      if n <? 128 then n :: decode r
      else if n <? 224 then
        match r with
        | String b r1 => (N.land n 31 * 64 + cont b) :: decode r1
        | _ => [n]
        end
      else if n <? 240 then
        match r with
        | String b (String c r2) =>
            (N.land n 15 * 4096 + cont b * 64 + cont c) :: decode r2
        | _ => [n]
        end
      else
        match r with
        | String b (String c (String d r3)) =>
            (N.land n 7 * 262144 + cont b * 4096 + cont c * 64 + cont d)
              :: decode r3
        | _ => [n]
        end
  end.

End Utf8.

Notation "'u8' s" := (Utf8.decode s%string) (at level 9, s at level 0, only parsing).

Arguments Utf8.decode : simpl never.

Set Warnings "-register-all".

(** The values [json.load] produces.  A float only ever reaches the code
    through [str()], so it is carried as the text Python shows for it.  An
    object is the list of the items of the parsed [dict], in insertion
    order; lookups take the first binding of a key. *)
Inductive json : Type :=
| JNull
| JBool (b : bool)
| JInt (z : Z)
| JFloat (shown : pystr)
| JStr (s : pystr)
| JArr (xs : list json)
| JObj (items : list (pystr * json)).

Abbreviation pydict := (list (pystr * json)).

(** ** Exceptions *)

Inductive exn : Type := TypeError | AttributeError | KeyError.

Inductive result (A : Type) : Type :=
| Ok (a : A)
| Raise (e : exn).
Arguments Ok {A} a.
Arguments Raise {A} e.

#[global] Instance exn_eq_dec : EqDecision exn.
Proof. solve_decision. Defined.
#[global] Instance result_eq_dec `{EqDecision A} : EqDecision (result A).
Proof. solve_decision. Defined.

#[global] Instance result_ret : MRet result := @Ok.
#[global] Instance result_bind : MBind result := λ A B f m,
  match m with
  | Ok a => f a
  | Raise e => Raise e
  end.

(** ** The Python operations the plugin uses *)

Module Py.

(** [k in text] on two strings: [k] occurs as a substring of [text]. *)
Fixpoint startswith (text k : pystr) {struct k} : bool :=
  match k, text with
  | [], _ => true
  | a :: k', b :: text' => N.eqb a b && startswith text' k'
  | _ :: _, [] => false
  end.

Fixpoint str_contains (text k : pystr) : bool :=
  startswith text k ||
  match text with
  | [] => false
  | _ :: text' => str_contains text' k
  end.

Definition is_str (v : json) (s : pystr) : bool :=
  match v with
  | JStr s' => bool_decide (s' = s)
  | _ => false
  end.

Fixpoint dict_get (d : pydict) (k : pystr) : option json :=
  match d with
  | [] => None
  | (k', v) :: d' => if bool_decide (k' = k) then Some v else dict_get d' k
  end.

(** [d[k] = v]: an existing key keeps its position, a new key goes last. *)
Fixpoint dict_set (d : pydict) (k : pystr) (v : json) : pydict :=
  match d with
  | [] => [(k, v)]
  | (k', v') :: d' =>
      if bool_decide (k' = k) then (k', v) :: d' else (k', v') :: dict_set d' k v
  end.

(** [x.get(k, default)]: only a [dict] has the method. *)
Definition get (x : json) (k : pystr) (default : json) : result json :=
  match x with
  | JObj d => Ok (match dict_get d k with Some v => v | None => default end)
  | _ => Raise AttributeError
  end.

(** [x[k]] *)
Definition getitem (x : json) (k : pystr) : result json :=
  match x with
  | JObj d => match dict_get d k with Some v => Ok v | None => Raise KeyError end
  | _ => Raise TypeError
  end.

(** [k in x] for a string [k]: key membership in a [dict], element
    membership in a [list], substring in a [str]; other values are not
    containers. *)
Definition contains (x : json) (k : pystr) : result bool :=
  match x with
  | JObj d => Ok (bool_decide (is_Some (dict_get d k)))
  | JArr xs => Ok (existsb (λ v, is_str v k) xs)
  | JStr s => Ok (str_contains s k)
  | _ => Raise TypeError
  end.

(** [v in text] where [text] is a string: the left operand must be a
    string too. *)
Definition in_str (v : json) (text : pystr) : result bool :=
  match v with
  | JStr k => Ok (str_contains text k)
  | _ => Raise TypeError
  end.

(** [for x in v]: the elements of a list, the characters of a string, the
    keys of a dict. *)
Definition iter (v : json) : result (list json) :=
  match v with
  | JArr xs => Ok xs
  | JStr s => Ok (map (λ c, JStr [c]) s)
  | JObj d => Ok (map (λ kv, JStr kv.1) d)
  | _ => Raise TypeError
  end.

Definition len (v : json) : result nat :=
  match v with
  | JStr s => Ok (length s)
  | JArr xs => Ok (length xs)
  | JObj d => Ok (length d)
  | _ => Raise TypeError
  end.

End Py.

Definition NL : pystr := [10%N].

(** ** The data directory *)

(** What [_load_worldbook] sees of a [*.json] file: its stem, its name, and
    the value [json.load] returns, or [None] when [open] or [json.load]
    raises. *)
Record json_file : Type := JsonFile {
  stem : pystr;
  name : pystr;
  parsed : option json
}.

(** The data directory: whether it exists, and the [*.json] files below it
    in the order [rglob] yields them.  Creating and listing the directory
    are taken to succeed. *)
Record filesystem : Type := FileSystem {
  data_path_exists : bool;
  data_path_files : list json_file
}.

(** [DATA_PATH.rglob("*.json")]: nothing below a directory that does not
    exist. *)
Definition rglob (fs : filesystem) : list json_file :=
  if data_path_exists fs then data_path_files fs else [].

(** [DATA_PATH.mkdir(parents=True, exist_ok=True)] *)
Definition mkdir (fs : filesystem) : filesystem :=
  {| data_path_exists := true; data_path_files := rglob fs |}.

(** The lines [_load_worldbook] prints per file. *)
Inductive diagnostic : Type :=
| Loaded (stem : pystr)
| SkippedBadFormat (name : pystr)
| LoadFailed (name : pystr).

(** ** WorldbookManager *)

Definition s_keywords : pystr := u8"keywords".
Definition s_content : pystr := u8"content".
Definition s_pet_name : pystr := u8"pet_name".
Definition s_skill_info : pystr := u8"skill_info".

Record WorldbookManager : Type := Manager {
  worldbook_data : pydict
}.

(** ["keywords" in entry and "content" in entry and "pet_name" in entry] *)
Definition has_core_fields (entry : json) : result bool :=
  a ← Py.contains entry s_keywords;
  if a : bool then
    b ← Py.contains entry s_content;
    if b : bool then Py.contains entry s_pet_name else Ok false
  else Ok false.

(** The body of the loop of [_load_worldbook]; an exception raised inside
    the [try] is caught and reported. *)
Definition load_file (acc : pydict * list diagnostic) (f : json_file)
  : pydict * list diagnostic :=
  let '(data, log) := acc in
  match parsed f with
  | None => (data, log ++ [LoadFailed (name f)])
  | Some entry =>
      match has_core_fields entry with
      | Ok true => (Py.dict_set data (stem f) entry, log ++ [Loaded (stem f)])
      | Ok false => (data, log ++ [SkippedBadFormat (name f)])
      | Raise _ => (data, log ++ [LoadFailed (name f)])
      end
  end.

Definition _load_worldbook (fs : filesystem) : WorldbookManager * list diagnostic :=
  let '(data, log) := foldl load_file ([], []) (rglob fs) in
  (Manager data, log).

(** [WorldbookManager.__init__] *)
Definition manager_init (fs : filesystem) : filesystem * WorldbookManager :=
  let fs' := mkdir fs in
  (fs', (_load_worldbook fs').1).

(** The inner loop of [find_entries_in_text]: the first keyword found in the
    text ends it. *)
Fixpoint any_keyword_in (keywords : list json) (text : pystr) : result bool :=
  match keywords with
  | [] => Ok false
  | keyword :: rest =>
      b ← Py.in_str keyword text;
      if b : bool then Ok true else any_keyword_in rest text
  end.

Definition entry_matches (entry_data : json) (text : pystr) : result bool :=
  kws ← Py.get entry_data s_keywords (JArr []);
  ks ← Py.iter kws;
  any_keyword_in ks text.

(** The outer loop, over [worldbook_data.items()]. *)
Fixpoint scan_entries (items : pydict) (text : pystr) : result (list json) :=
  match items with
  | [] => Ok []
  | (_, entry_data) :: rest =>
      b ← entry_matches entry_data text;
      found ← scan_entries rest text;
      Ok (if b : bool then entry_data :: found else found)
  end.

Definition find_entries_in_text (self : WorldbookManager) (text : pystr)
  : result (list json) :=
  match text with
  | [] => Ok []
  | _ => scan_entries (worldbook_data self) text
  end.

(** ** Text formatting *)

Fixpoint uint_digits (d : Decimal.uint) : pystr :=
  match d with
  | Decimal.Nil => []
  | Decimal.D0 d => 48%N :: uint_digits d
  | Decimal.D1 d => 49%N :: uint_digits d
  | Decimal.D2 d => 50%N :: uint_digits d
  | Decimal.D3 d => 51%N :: uint_digits d
  | Decimal.D4 d => 52%N :: uint_digits d
  | Decimal.D5 d => 53%N :: uint_digits d
  | Decimal.D6 d => 54%N :: uint_digits d
  | Decimal.D7 d => 55%N :: uint_digits d
  | Decimal.D8 d => 56%N :: uint_digits d
  | Decimal.D9 d => 57%N :: uint_digits d
  end.

Definition int_str (z : Z) : pystr :=
  match Z.to_int z with
  | Decimal.Pos d => uint_digits d
  | Decimal.Neg d => 45%N :: uint_digits d
  end.

Section Formatting.

(** [repr] of a string picks its quotes and escapes by the Unicode
    character database of the interpreter; it is a parameter here.  It is
    only reached when a list or an object is formatted. *)
Variable repr_str : pystr → pystr.

Fixpoint py_repr (v : json) : pystr :=
  match v with
  | JNull => u8"None"
  | JBool true => u8"True"
  | JBool false => u8"False"
  | JInt z => int_str z
  | JFloat shown => shown
  | JStr s => repr_str s
  | JArr xs =>
      u8"[" ++
      (fix join (xs : list json) : pystr :=
         match xs with
         | [] => []
         | x :: r =>
             py_repr x ++ match r with [] => [] | _ => u8", " ++ join r end
         end) xs ++ u8"]"
  | JObj d =>
      u8"{" ++
      (fix join (d : pydict) : pystr :=
         match d with
         | [] => []
         | (k, x) :: r =>
             repr_str k ++ u8": " ++ py_repr x ++
             match r with [] => [] | _ => u8", " ++ join r end
         end) d ++ u8"}"
  end.

(** What an f-string puts for [{v}]: [str(v)]. *)
Definition py_str (v : json) : pystr :=
  match v with
  | JStr s => s
  | _ => py_repr v
  end.

Definition lore_header : pystr :=
  u8"[系统指令：请根据以下背景知识来理解和回复用户的提问。重要规则：一个宠物只能同时携带一种血脉效果和四个技能。]" ++ NL.

(** The [skill_info] line of one entry. *)
Definition format_skill_info (info : json) : result pystr :=
  power ← Py.get info u8"power" JNull;
  let power_str :=
    match power with
    | JNull => u8"威力: ---"
    | _ => u8"威力: " ++ py_str power
    end in
  pp ← Py.get info u8"pp" (JStr u8"?");
  let pp_str := u8"PP: " ++ py_str pp in
  priority ← Py.get info u8"priority" (JStr u8"?");
  let priority_str := u8"先手等级: " ++ py_str priority in
  type ← Py.get info u8"type" (JStr u8"?");
  let type_str := u8"属性: " ++ py_str type in
  category ← Py.get info u8"category" (JStr u8"?");
  let category_str := u8"类型: " ++ py_str category in
  Ok (u8"技能数据：" ++ power_str ++ u8" | " ++ pp_str ++ u8" | " ++
      priority_str ++ u8" | " ++ type_str ++ u8" | " ++ category_str ++ NL).

(** The body of the formatting loop: what one entry appends to
    [lore_prompt]. *)
Definition format_entry (lore_prompt : pystr) (entry : json) : result pystr :=
  let lore_prompt := lore_prompt ++ u8"--- 背景知识 ---" ++ NL in
  pet ← Py.get entry s_pet_name (JStr u8"未知");
  let lore_prompt := lore_prompt ++ u8"宠物：" ++ py_str pet ++ NL in
  has ← Py.contains entry s_skill_info;
  lore_prompt ←
    (if has : bool then
       info ← Py.getitem entry s_skill_info;
       skill_info_line ← format_skill_info info;
       Ok (lore_prompt ++ skill_info_line ++ NL)
     else Ok lore_prompt);
  content ← Py.get entry s_content (JStr u8"无内容");
  let lore_prompt := lore_prompt ++ py_str content ++ NL in
  Ok (lore_prompt ++ u8"--- 背景知识结束 ---" ++ NL).

Fixpoint format_entries (lore_prompt : pystr) (lore_to_add : list json)
  : result pystr :=
  match lore_to_add with
  | [] => Ok lore_prompt
  | entry :: rest =>
      lore_prompt ← format_entry lore_prompt entry;
      format_entries lore_prompt rest
  end.

End Formatting.

(** ** Sorting *)

(** [list.sort(key=..., reverse=True)] as the Python documentation gives
    it: the key of every element is computed once, before any element
    moves; the order is by decreasing key; elements of equal key keep their
    order, also under [reverse=True]. *)
Section Sort.
Context {A : Type}.

Fixpoint insert_desc (k : nat) (x : A) (l : list (nat * A)) : list (nat * A) :=
  match l with
  | [] => [(k, x)]
  | (k', y) :: r =>
      if (k <? k')%nat then (k', y) :: insert_desc k x r
      else (k, x) :: (k', y) :: r
  end.

Fixpoint sort_desc (keyed : list (nat * A)) : list (nat * A) :=
  match keyed with
  | [] => []
  | (k, x) :: r => insert_desc k x (sort_desc r)
  end.

End Sort.

(** The sort key: [len(entry.get('content', ''))] *)
Definition content_len (entry : json) : result nat :=
  c ← Py.get entry s_content (JStr []);
  Py.len c.

Fixpoint keyed_by_content_len (lore : list json) : result (list (nat * json)) :=
  match lore with
  | [] => Ok []
  | entry :: rest =>
      k ← content_len entry;
      keyed ← keyed_by_content_len rest;
      Ok ((k, entry) :: keyed)
  end.

Definition sort_by_content_len (lore : list json) : result (list json) :=
  keyed ← keyed_by_content_len lore;
  Ok (sort_desc keyed).*2.

(** ** WorldbookPlugin *)

Record WorldbookPlugin : Type := Plugin {
  manager : WorldbookManager;
  lore_to_inject : gmap pystr (list json)
}.

(** The field of the host's request object the plugin reads and writes. *)
Record ProviderRequest : Type := Request {
  system_prompt : pystr
}.

(** [WorldbookPlugin.__init__] *)
Definition plugin_init (fs : filesystem) : filesystem * WorldbookPlugin :=
  let '(fs', m) := manager_init fs in
  (fs', Plugin m ∅).

(** A handler returns the plugin as it leaves it, also when it raises.
    The list a session has staged is referenced from [lore_to_inject] only
    (each call of [find_entries_in_text] builds a new one), and no handler
    writes to an entry, so lists and entries are values here. *)
Definition on_any_message (self : WorldbookPlugin)
    (session_id user_message : pystr) : WorldbookPlugin * result () :=
  match find_entries_in_text (manager self) user_message with
  | Raise e => (self, Raise e)
  | Ok [] =>
      match lore_to_inject self !! session_id with
      | Some _ =>
          (Plugin (manager self) (delete session_id (lore_to_inject self)), Ok ())
      | None => (self, Ok ())
      end
  | Ok found_lore =>
      (Plugin (manager self) (<[session_id := found_lore]> (lore_to_inject self)),
       Ok ())
  end.

Section Injection.
Variable repr_str : pystr → pystr.

Definition inject_worldbook_context (self : WorldbookPlugin)
    (session_id : pystr) (req : ProviderRequest)
  : WorldbookPlugin * ProviderRequest * result () :=
  match lore_to_inject self !! session_id with
  | None => (self, req, Ok ())
  | Some lore_to_add =>
      match sort_by_content_len lore_to_add with
      | Raise e => (self, req, Raise e)
      | Ok sorted =>
          (* the sort is in place: the staged list is now the sorted one *)
          let self :=
            Plugin (manager self) (<[session_id := sorted]> (lore_to_inject self)) in
          match format_entries repr_str lore_header sorted with
          | Raise e => (self, req, Raise e)
          | Ok lore_prompt =>
              (Plugin (manager self) (delete session_id (lore_to_inject self)),
               Request (lore_prompt ++ NL ++ system_prompt req),
               Ok ())
          end
      end
  end.

End Injection.

(** The [重载世界书] command: the store is loaded again; staged entries stay. *)
Definition reload_worldbook (fs : filesystem) (self : WorldbookPlugin)
  : filesystem * WorldbookPlugin * pystr :=
  (fs,
   Plugin (_load_worldbook fs).1 (lore_to_inject self),
   u8"✅ 世界书数据已成功重载。").

(** ** The example of the specification *)

Module Example.

Definition fire_blast : json :=
  JObj [(s_keywords, JArr [JStr u8"火焰"; JStr u8"烈焰球"]);
        (s_content, JStr u8"高威力特殊火属性攻击技能");
        (s_pet_name, JStr u8"小火龙");
        (s_skill_info,
          JObj [(u8"power", JInt 110); (u8"pp", JInt 5); (u8"priority", JInt 0);
                (u8"type", JStr u8"火"); (u8"category", JStr u8"特殊")])].

Definition disk : filesystem :=
  FileSystem true [JsonFile u8"fire_blast" u8"fire_blast.json" (Some fire_blast)].

Definition session : pystr := u8"aiocqhttp:GroupMessage:1".
Definition other_session : pystr := u8"aiocqhttp:FriendMessage:2".

Definition plugin0 : WorldbookPlugin := (plugin_init disk).2.
Definition plugin1 : WorldbookPlugin :=
  (on_any_message plugin0 session u8"我想学火焰技能").1.

Definition request : ProviderRequest := Request u8"You are a helpful bot.".

(** A second record, without [skill_info]. *)
Definition water_gun : json :=
  JObj [(s_keywords, JArr [JStr u8"水枪"]);
        (s_content, JStr u8"水属性基础技能");
        (s_pet_name, JStr u8"杰尼龟")].

Definition disk2 : filesystem :=
  FileSystem true
    [JsonFile u8"fire_blast" u8"fire_blast.json" (Some fire_blast);
     JsonFile u8"water_gun" u8"water_gun.json" (Some water_gun)].

Definition plugin2 : WorldbookPlugin := (plugin_init disk2).2.

(** [repr] of a string of printable characters without quotes and
    backslashes. *)
Definition plain_repr (s : pystr) : pystr := u8"'" ++ s ++ u8"'".

End Example.

(** * Vocabulary of the properties *)

(** ** Substrings *)

Definition substring (k text : pystr) : Prop :=
  ∃ pre post, text = pre ++ k ++ post.

(** ** Records as the data model types them *)

Definition is_string (v : json) : bool :=
  match v with JStr _ => true | _ => false end.

(** An object whose [keywords], when present, can be iterated and yields
    strings only: an array of strings, a string, or an object. *)
Definition keywords_ok (e : json) : bool :=
  match e with
  | JObj d =>
      match Py.dict_get d s_keywords with
      | None => true
      | Some (JArr xs) => forallb is_string xs
      | Some (JStr _) | Some (JObj _) => true
      | Some _ => false
      end
  | _ => false
  end.

(** The keywords the loop of [find_entries_in_text] goes through. *)
Definition keywords_of (e : json) : list json :=
  match Py.get e s_keywords (JArr []) ≫= Py.iter with
  | Ok ks => ks
  | Raise _ => []
  end.

Definition has_keyword_in (e : json) (text : pystr) : Prop :=
  ∃ k, JStr k ∈ keywords_of e ∧ substring k text.

Definition sized (v : json) : bool :=
  match v with JStr _ | JArr _ | JObj _ => true | _ => false end.

(** An object whose [content], when present, has a length. *)
Definition content_ok (e : json) : bool :=
  match e with
  | JObj d =>
      match Py.dict_get d s_content with
      | Some v => sized v
      | None => true
      end
  | _ => false
  end.

(** An object whose [skill_info], when present, is an object. *)
Definition skill_info_ok (e : json) : bool :=
  match e with
  | JObj d =>
      match Py.dict_get d s_skill_info with
      | Some (JObj _) | None => true
      | Some _ => false
      end
  | _ => false
  end.

(** The records [inject_worldbook_context] formats without raising. *)
Definition injectable (e : json) : bool := content_ok e && skill_info_ok e.

(** A Lore Record of the data model: an object with [keywords] a sequence
    of strings, [content] a string, [pet_name] a string and, optionally,
    [skill_info] a nested record. *)
Definition lore_record (e : json) : bool :=
  match e with
  | JObj d =>
      match Py.dict_get d s_keywords with
      | Some (JArr xs) => forallb is_string xs
      | _ => false
      end &&
      match Py.dict_get d s_content with Some (JStr _) => true | _ => false end &&
      match Py.dict_get d s_pet_name with Some (JStr _) => true | _ => false end &&
      match Py.dict_get d s_skill_info with
      | Some (JObj _) | None => true
      | Some _ => false
      end
  | _ => false
  end.

(** ** The store *)

(** The store is a [dict]: no record name occurs twice, and a record is
    identified by its name. *)
Definition store_wf (self : WorldbookManager) : Prop :=
  NoDup (worldbook_data self).*1.

Definition store_typed (self : WorldbookManager) : Prop :=
  Forall (λ kv, keywords_ok kv.2 = true) (worldbook_data self).

Definition has_field (e : json) (k : pystr) : Prop :=
  ∃ d, e = JObj d ∧ is_Some (Py.dict_get d k).

(** ** Sort keys *)

Definition key_ge {A : Type} (a b : nat * A) : Prop := b.1 ≤ a.1.

(** The length of a record's content, read off the record itself and not
    off the key the code computes: the number of characters of the string
    under [content]; for a list or an object under [content] the number of
    its elements; nothing counted when there is no content. *)
Definition content_chars (e : json) : nat :=
  match e with
  | JObj d =>
      match Py.dict_get d s_content with
      | Some (JStr s) => length s
      | Some (JArr xs) => length xs
      | Some (JObj items) => length items
      | _ => 0
      end
  | _ => 0
  end.

Definition content_key (e : json) : nat :=
  match content_len e with Ok n => n | Raise _ => 0 end.

Definition with_key (e : json) : nat * json := (content_key e, e).

Definition ends_with_newline (s : pystr) : Prop := last s = Some 10%N.

(** ** Inputs of the examples *)

Module LoadExamples.

(** A file holding a JSON array of the three field names. *)
Definition field_names : json :=
  JArr [JStr s_keywords; JStr s_content; JStr s_pet_name].

Definition field_names_disk : filesystem :=
  FileSystem true [JsonFile u8"notes" u8"notes.json" (Some field_names)].

(** A file holding an object with the three fields, [keywords] a number. *)
Definition numeric_keywords : json :=
  JObj [(s_keywords, JInt 5); (s_content, JStr u8"c"); (s_pet_name, JStr u8"p")].

Definition numeric_keywords_disk : filesystem :=
  FileSystem true [JsonFile u8"odd" u8"odd.json" (Some numeric_keywords)].

(** An object whose only keyword is the empty string. *)
Definition blank_keyword : json :=
  JObj [(s_keywords, JArr [JStr []]); (s_content, JStr u8"c");
        (s_pet_name, JStr u8"p")].

Definition blank_keyword_store : WorldbookManager :=
  Manager [(u8"blank", blank_keyword)].

(** The data directory was removed after the plugin started. *)
Definition no_directory : filesystem := FileSystem false [].

End LoadExamples.

Module SortExample.

Definition record (n content : pystr) : json :=
  JObj [(s_keywords, JArr [JStr n]); (s_content, JStr content); (s_pet_name, JStr n)].

Definition A : json := record u8"A" u8"aaaaaaaaaa".
Definition B : json := record u8"B" u8"bbbbbbbbbb".
Definition C : json := record u8"C" u8"ccccc".
Definition D : json := record u8"D" u8"长长长长长长长长长长长长".

End SortExample.

(** ** Loading, file by file *)

(** The entry a file contributes to the store, if it contributes one: the
    file was read and parsed, and the value passed the test of the loader. *)
Definition accepted (f : json_file) : option json :=
  match parsed f with
  | Some entry =>
      match has_core_fields entry with
      | Ok true => Some entry
      | _ => None
      end
  | None => None
  end.

(** What one file does to the store. *)
Definition store_step (data : pydict) (f : json_file) : pydict :=
  match accepted f with
  | Some entry => Py.dict_set data (stem f) entry
  | None => data
  end.

(** The entries the files of stem [k] contribute, in the order of the
    files. *)
Definition contributions (k : pystr) (files : list json_file) : list json :=
  omap (λ f, if bool_decide (stem f = k) then accepted f else None) files.

(** ** Ill-typed records *)

Definition is_object (e : json) : bool :=
  match e with JObj _ => true | _ => false end.

(** The exception the keyword loop meets at a record that is not an object
    ([.get] is missing) or whose [keywords] cannot be iterated. *)
Definition keywords_error (e : json) : option exn :=
  match e with
  | JObj d =>
      match Py.dict_get d s_keywords with
      | Some JNull | Some (JBool _) | Some (JInt _) | Some (JFloat _) =>
          Some TypeError
      | _ => None
      end
  | _ => Some AttributeError
  end.

Module EdgeExamples.

(** A record whose keywords hold a number after a string. *)
Definition mixed_keywords : json :=
  JObj [(s_keywords, JArr [JStr u8"火"; JInt 5]); (s_content, JStr u8"c");
        (s_pet_name, JStr u8"p")].

Definition mixed_store : WorldbookManager :=
  Manager [(u8"fire_blast", Example.fire_blast); (u8"mixed", mixed_keywords);
           (u8"water_gun", Example.water_gun)].

(** A store whose second record has a number for [keywords]. *)
Definition broken_store : WorldbookManager :=
  Manager [(u8"fire_blast", Example.fire_blast);
           (u8"odd", LoadExamples.numeric_keywords);
           (u8"water_gun", Example.water_gun)].

(** A record whose content is a number. *)
Definition numeric_content : json :=
  JObj [(s_keywords, JArr [JStr u8"a"]); (s_content, JInt 5);
        (s_pet_name, JStr u8"p")].

(** A record whose skill_info is a string. *)
Definition text_skill_info : json :=
  JObj [(s_keywords, JArr [JStr u8"a"]); (s_content, JStr u8"c");
        (s_pet_name, JStr u8"p"); (s_skill_info, JStr u8"none")].

(** Something is staged for a session while the store holds an ill-typed
    record. *)
Definition staged_over_broken_store : WorldbookPlugin :=
  Plugin broken_store {[Example.session := [Example.fire_blast]]}.

End EdgeExamples.

(** ** Tactics *)

Ltac unbind := unfold mbind, result_bind, mret, result_ret in *.

Ltac by_computation := refine (bool_decide_unpack _ _); vm_compute; exact I.

(** * Properties *)

(** ** Substrings *)

Lemma startswith_spec text k :
  Py.startswith text k = true ↔ ∃ post, text = k ++ post.
Proof.
  revert text. induction k as [|a k IH]; intros text; simpl.
  - split; [by exists text | done].
  - destruct text as [|b text].
    + split; [done | intros [post [=]]].
    + rewrite andb_true_iff, N.eqb_eq, IH. split.
      * intros [-> [post ->]]. by exists post.
      * intros [post [= -> ->]]. eauto.
Qed.

Lemma str_contains_spec text k :
  Py.str_contains text k = true ↔ substring k text.
Proof.
  induction text as [|b text IH]; simpl.
  - rewrite orb_false_r, startswith_spec. split.
    + intros [post E]. by exists [], post.
    + intros (pre & post & E). destruct pre; simplify_eq/=. by exists post.
  - rewrite orb_true_iff, IH, startswith_spec. split.
    + intros [[post E]|(pre & post & E)].
      * by exists [], post.
      * exists (b :: pre), post. by rewrite E.
    + intros (pre & post & E). destruct pre as [|c pre]; simpl in E.
      * left. by exists post.
      * right. injection E as -> E. by exists pre, post.
Qed.

Lemma substring_empty text : substring [] text.
Proof. by exists [], text. Qed.

Lemma str_contains_empty text : Py.str_contains text [] = true.
Proof. apply str_contains_spec, substring_empty. Qed.

(** ** Records as the data model types them *)

Lemma keywords_ok_iter e :
  keywords_ok e = true →
  ∃ kws, Py.get e s_keywords (JArr []) = Ok kws ∧
         Py.iter kws = Ok (keywords_of e) ∧
         Forall (λ v, is_string v = true) (keywords_of e).
Proof.
  unfold keywords_of. destruct e as [| | | | | |d]; try done. simpl.
  destruct (Py.dict_get d s_keywords) as [[| | | |s|xs|d']|]; try done; intros H.
  - eexists; split_and!; [done..|]. simpl. by apply Forall_fmap, Forall_true.
  - eexists; split_and!; [done..|]. simpl. apply Forall_forall. intros x Hx.
    by apply (proj1 (forallb_forall _ _) H), list_elem_of_In.
  - eexists; split_and!; [done..|]. simpl. by apply Forall_fmap, Forall_true.
  - eexists; split_and!; [done..|]. by simpl.
Qed.

Lemma any_keyword_in_spec ks text :
  Forall (λ v, is_string v = true) ks →
  ∃ b, any_keyword_in ks text = Ok b ∧
       (b = true ↔ ∃ k, JStr k ∈ ks ∧ substring k text).
Proof.
  induction 1 as [|v ks Hv _ (b & Hb & IH)]; simpl.
  - exists false. split; [done|]. split; [done|].
    intros (k & Hk & _). by apply elem_of_nil in Hk.
  - destruct v as [| | | |k| |]; try done. simpl. unbind.
    destruct (Py.str_contains text k) eqn:Hc.
    + exists true. split; [done|]. split; [|done]. intros _.
      exists k. split; [left|]. by apply str_contains_spec.
    + exists b. split; [done|]. rewrite IH. split.
      * intros (k' & Hk' & Hs). exists k'. split; [by right|done].
      * intros (k' & Hk' & Hs). apply elem_of_cons in Hk' as [[= ->]|Hk'].
        -- apply str_contains_spec in Hs. congruence.
        -- eauto.
Qed.

Lemma entry_matches_spec e text :
  keywords_ok e = true →
  ∃ b, entry_matches e text = Ok b ∧ (b = true ↔ has_keyword_in e text).
Proof.
  intros (kws & Hg & Hi & Hs)%keywords_ok_iter.
  destruct (any_keyword_in_spec _ text Hs) as (b & Hb & Hiff).
  exists b. split; [|done].
  unfold entry_matches. rewrite Hg. unbind. by rewrite Hi.
Qed.

Lemma scan_entries_spec items text :
  Forall (λ kv, keywords_ok kv.2 = true) items →
  ∃ hits, scan_entries items text = Ok hits.*2 ∧
          hits `sublist_of` items ∧
          ∀ kv, kv ∈ hits ↔ kv ∈ items ∧ has_keyword_in kv.2 text.
Proof.
  induction 1 as [|[n e] items He _ (hits & Hscan & Hsub & Hiff)]; simpl.
  - exists []. split_and!; [done..|]. intros kv. split; [by intros ?%elem_of_nil|].
    by intros [?%elem_of_nil _].
  - destruct (entry_matches_spec e text He) as (b & -> & Hb). unbind.
    rewrite Hscan. destruct b.
    + exists ((n, e) :: hits). split_and!; [done|by constructor|].
      intros kv. rewrite !elem_of_cons, Hiff. split.
      * intros [->|[? ?]]; [|by auto]. split; [by left|]. by apply Hb.
      * intros [[->|?] ?]; auto.
    + exists hits. split_and!; [done|by constructor|].
      intros kv. rewrite elem_of_cons, Hiff. split; [by intuition|].
      intros [[->|?] Hk]; [|done]. apply Hb in Hk. done.
Qed.

(** C3, amended: for a non-empty text, [find_entries_in_text] returns the
    stored records (objects whose keywords are strings), in store order, each
    named record exactly once if and only if one of its keywords is a
    substring of the text; for the empty text the result is empty; and when
    no keyword of any stored record is a substring of the text, the result
    is empty. *)
Theorem find_entries_exactly_once (self : WorldbookManager) (text : pystr) :
  store_wf self → store_typed self →
  (text ≠ [] →
   ∃ hits : pydict,
     find_entries_in_text self text = Ok hits.*2 ∧
     hits `sublist_of` worldbook_data self ∧
     NoDup hits.*1 ∧
     ∀ name R, (name, R) ∈ hits ↔
               (name, R) ∈ worldbook_data self ∧ has_keyword_in R text) ∧
  find_entries_in_text self [] = Ok [] ∧
  ((∀ name R, (name, R) ∈ worldbook_data self → ¬ has_keyword_in R text) →
   find_entries_in_text self text = Ok []).
Proof.
  intros Hwf Hty.
  destruct (scan_entries_spec _ text Hty) as (hits & Hscan & Hsub & Hiff).
  split_and!.
  - intros Hne. exists hits. split_and!; [|done| |].
    + destruct text; [done|]. exact Hscan.
    + apply (sublist_NoDup hits.*1 (worldbook_data self).*1); [exact Hwf|by apply fmap_sublist].
    + intros name R. apply (Hiff (name, R)).
  - done.
  - intros Hnone. destruct text as [|c text]; [done|].
    unfold find_entries_in_text. rewrite Hscan.
    destruct hits as [|[n R] hits]; [done|]. exfalso.
    destruct (Hiff (n, R)) as [[Hin Hk] _]; [by left|]. by apply (Hnone n R).
Qed.

(** C9: a stored record with the empty string among its keywords is in the
    result of [find_entries_in_text] for every non-empty text (the store
    holding objects whose keywords are strings); for the empty text the
    guard returns nothing although the empty keyword is a substring of it. *)
Theorem empty_keyword_matches_every_text
    (self : WorldbookManager) (text name : pystr) (R : json) :
  store_typed self →
  (name, R) ∈ worldbook_data self →
  JStr [] ∈ keywords_of R →
  (text ≠ [] → ∃ found, find_entries_in_text self text = Ok found ∧ R ∈ found) ∧
  (has_keyword_in R [] ∧ find_entries_in_text self [] = Ok []).
Proof.
  intros Hty Hin Hk. split.
  - intros Hne.
    destruct (scan_entries_spec _ text Hty) as (hits & Hscan & _ & Hiff).
    exists hits.*2. split.
    + destruct text; [done|]. exact Hscan.
    + apply list_elem_of_fmap. exists (name, R). split; [done|].
      apply Hiff. split; [done|]. exists []. split; [done|]. apply substring_empty.
  - split; [|done]. exists []. split; [done|]. apply substring_empty.
Qed.

(** ** Loading *)

Lemma dict_set_elem_of d k v kv :
  kv ∈ Py.dict_set d k v → kv ∈ d ∨ kv = (k, v).
Proof.
  induction d as [|[k' v'] d IH]; simpl.
  - intros ->%list_elem_of_singleton. by right.
  - case_bool_decide as Hk.
    + intros [->|?]%elem_of_cons; [right; by subst|left; by right].
    + intros [->|[?| ->]%IH]%elem_of_cons; [left; by left|left; by right|by right].
Qed.

Lemma dict_set_keys d k v :
  (Py.dict_set d k v).*1 = d.*1 ∨
  ((k ∉ d.*1) ∧ (Py.dict_set d k v).*1 = d.*1 ++ [k]).
Proof.
  induction d as [|[k' v'] d IH]; cbn [Py.dict_set].
  - right. split; [apply not_elem_of_nil|done].
  - case_bool_decide as Hk; [by left|]. rewrite !fmap_cons. cbn [fst].
    destruct IH as [->|[Hn ->]]; [by left|]. right. split; [|done].
    by intros [?|?]%elem_of_cons.
Qed.

Lemma dict_set_NoDup d k v : NoDup d.*1 → NoDup (Py.dict_set d k v).*1.
Proof.
  intros Hd. destruct (dict_set_keys d k v) as [->|[Hn ->]]; [done|].
  apply NoDup_app. split_and!; [done| |apply NoDup_singleton].
  intros x Hx ->%list_elem_of_singleton. done.
Qed.

Lemma dict_get_set d k v : Py.dict_get (Py.dict_set d k v) k = Some v.
Proof.
  induction d as [|[k' v'] d IH]; simpl.
  - by rewrite bool_decide_eq_true_2.
  - case_bool_decide as Hk; simpl.
    + by rewrite bool_decide_eq_true_2.
    + by rewrite bool_decide_eq_false_2.
Qed.

(** What the loop of [_load_worldbook] maintains, for any property [P] of
    the values it admits. *)
Lemma load_file_invariant (P : json → Prop) acc f :
  (∀ e, parsed f = Some e → has_core_fields e = Ok true → P e) →
  NoDup acc.1.*1 ∧ Forall (λ kv, P kv.2) acc.1 →
  NoDup (load_file acc f).1.*1 ∧ Forall (λ kv, P kv.2) (load_file acc f).1.
Proof.
  intros HP [Hnd Hall]. destruct acc as [data log]. unfold load_file. simpl in *.
  destruct (parsed f) as [entry|]; [|done].
  destruct (has_core_fields entry) as [[]|] eqn:Hc; [|done..]. simpl.
  split; [by apply dict_set_NoDup|].
  apply Forall_forall. intros kv [Hkv| ->]%dict_set_elem_of.
  - by eapply Forall_forall in Hall.
  - by apply HP.
Qed.

Lemma foldl_load_file_invariant (P : json → Prop) files acc :
  (∀ f e, f ∈ files → parsed f = Some e → has_core_fields e = Ok true → P e) →
  NoDup acc.1.*1 ∧ Forall (λ kv, P kv.2) acc.1 →
  NoDup (foldl load_file acc files).1.*1 ∧
  Forall (λ kv, P kv.2) (foldl load_file acc files).1.
Proof.
  revert acc. induction files as [|f files IH]; intros acc HP Hacc; [done|].
  simpl. apply IH.
  - intros f' e Hf'. apply HP. by right.
  - apply load_file_invariant; [|done]. intros e. apply HP. by left.
Qed.

Lemma load_worldbook_data fs :
  worldbook_data (_load_worldbook fs).1 = (foldl load_file ([], []) (rglob fs)).1.
Proof. unfold _load_worldbook. by destruct (foldl _ _ _). Qed.

Lemma load_worldbook_invariant (P : json → Prop) fs :
  (∀ f e, f ∈ rglob fs → parsed f = Some e → has_core_fields e = Ok true → P e) →
  store_wf (_load_worldbook fs).1 ∧
  Forall (λ kv, P kv.2) (worldbook_data (_load_worldbook fs).1).
Proof.
  intros HP. unfold store_wf. rewrite load_worldbook_data.
  apply foldl_load_file_invariant; [done|]. split; [constructor|constructor].
Qed.

(** Every value in a loaded store passed the test of the loader. *)
Lemma load_worldbook_checked fs name e :
  (name, e) ∈ worldbook_data (_load_worldbook fs).1 → has_core_fields e = Ok true.
Proof.
  intros Hin.
  destruct (load_worldbook_invariant (λ e, has_core_fields e = Ok true) fs)
    as [_ Hall]; [done|].
  by apply (proj1 (Forall_forall _ _) Hall (name, e)).
Qed.

(** For an object, the test of the loader is the presence of the three
    fields. *)
Lemma has_core_fields_object d :
  has_core_fields (JObj d) = Ok true ↔
  has_field (JObj d) s_keywords ∧ has_field (JObj d) s_content ∧
  has_field (JObj d) s_pet_name.
Proof.
  unfold has_core_fields, has_field. simpl. unbind. split.
  - repeat case_bool_decide; try done. intros _. split_and!; by eexists.
  - intros ((d1 & [= <-] & ?) & (d2 & [= <-] & ?) & (d3 & [= <-] & ?)).
    by rewrite !bool_decide_eq_true_2.
Qed.

(** A loaded object has the three fields. *)
Lemma load_worldbook_object_fields fs name d :
  (name, JObj d) ∈ worldbook_data (_load_worldbook fs).1 →
  has_field (JObj d) s_keywords ∧ has_field (JObj d) s_content ∧
  has_field (JObj d) s_pet_name.
Proof. intros H%load_worldbook_checked. by apply has_core_fields_object. Qed.

(** A file whose object lacks one of the three fields is skipped and
    reported; the store stays as it was. *)
Lemma load_file_skips_incomplete_object data log f d :
  parsed f = Some (JObj d) →
  ¬ (has_field (JObj d) s_keywords ∧ has_field (JObj d) s_content ∧
     has_field (JObj d) s_pet_name) →
  load_file (data, log) f = (data, log ++ [SkippedBadFormat (name f)]).
Proof.
  intros Hp Hmiss. unfold load_file. rewrite Hp.
  destruct (has_core_fields (JObj d)) as [[]|] eqn:Hc; [|done|].
  - by apply has_core_fields_object in Hc.
  - unfold has_core_fields in Hc. simpl in Hc. unbind.
    by repeat case_bool_decide.
Qed.

(** Whatever [find_entries_in_text] returns comes from the store. *)
Lemma scan_entries_from_store items text found e :
  scan_entries items text = Ok found → e ∈ found → ∃ name, (name, e) ∈ items.
Proof.
  revert found. induction items as [|[n e'] items IH]; intros found; simpl.
  - intros [= <-] Hin. by apply elem_of_nil in Hin.
  - unbind. destruct (entry_matches e' text) as [b|]; [|done].
    destruct (scan_entries items text) as [found'|]; [|done].
    intros [= <-] Hin.
    assert (e = e' ∨ e ∈ found') as [->|Hin'].
    { destruct b; [by apply elem_of_cons in Hin|by right]. }
    + exists n. left.
    + destruct (IH found' eq_refl Hin') as [name Hname]. exists name. by right.
Qed.

(** After a load, an object in a result of [find_entries_in_text] has the
    three fields. *)
Lemma found_object_has_core_fields fs text found d :
  find_entries_in_text (_load_worldbook fs).1 text = Ok found →
  JObj d ∈ found →
  has_field (JObj d) s_keywords ∧ has_field (JObj d) s_content ∧
  has_field (JObj d) s_pet_name.
Proof.
  intros Hfind Hin. destruct text as [|c text].
  - injection Hfind as <-. by apply elem_of_nil in Hin.
  - destruct (scan_entries_from_store _ _ _ _ Hfind Hin) as [name Hname].
    by eapply load_worldbook_object_fields.
Qed.

(** The typing of the data model is enough for every handler. *)
Lemma lore_record_typed e :
  lore_record e = true →
  keywords_ok e = true ∧ content_ok e = true ∧ skill_info_ok e = true.
Proof.
  destruct e as [| | | | | |d]; try done. simpl.
  rewrite !andb_true_iff. intros [[[Hk Hc] _] Hs]. split_and!.
  - by destruct (Py.dict_get d s_keywords) as [[]|].
  - by destruct (Py.dict_get d s_content) as [[]|].
  - done.
Qed.

(** C6, at a file that holds no object: the array of the three field names
    has no field, passes the membership tests of the loader, enters the
    store, and makes every later search of a non-empty text raise. *)
Theorem load_admits_array_of_field_names :
  ¬ has_field LoadExamples.field_names s_keywords ∧
  _load_worldbook LoadExamples.field_names_disk =
    (Manager [(u8"notes", LoadExamples.field_names)], [Loaded u8"notes"]) ∧
  find_entries_in_text (_load_worldbook LoadExamples.field_names_disk).1 u8"hi" =
    Raise AttributeError.
Proof.
  split_and!.
  - intros (d & [=] & _).
  - vm_compute. reflexivity.
  - vm_compute. reflexivity.
Qed.

(** C7, as stated, fails: a reload with the directory absent leaves it
    absent. *)
Lemma reload_does_not_create_directory :
  data_path_exists
    (reload_worldbook LoadExamples.no_directory (Plugin (Manager []) ∅)).1.1 = false.
Proof. reflexivity. Qed.

(** C7, amended: constructing the manager creates the data directory before
    the first load reads it; the reload command leaves the file system as it
    is, loads what [rglob] yields there, which is nothing when the directory
    is absent, and keeps the staged entries. *)
Theorem directory_ensured_at_construction_only
    (fs : filesystem) (self : WorldbookPlugin) (files : list json_file) :
  data_path_exists (plugin_init fs).1 = true ∧
  manager (plugin_init fs).2 = (_load_worldbook (mkdir fs)).1 ∧
  reload_worldbook fs self =
    (fs, Plugin (_load_worldbook fs).1 (lore_to_inject self),
     u8"✅ 世界书数据已成功重载。") ∧
  (reload_worldbook (FileSystem false files) self).1 =
    (FileSystem false files, Plugin (Manager []) (lore_to_inject self)).
Proof. done. Qed.

(** ** Messages *)

Lemma find_entries_typed self text :
  store_typed self → ∃ found, find_entries_in_text self text = Ok found.
Proof.
  intros Hty. destruct text as [|c text]; [by exists []|].
  destruct (scan_entries_spec _ (c :: text) Hty) as (hits & Hscan & _).
  by exists hits.*2.
Qed.

Lemma on_any_message_ok self sid text found :
  find_entries_in_text (manager self) text = Ok found →
  on_any_message self sid text =
    (Plugin (manager self)
       (match found with
        | [] => delete sid (lore_to_inject self)
        | _ => <[sid := found]> (lore_to_inject self)
        end), Ok ()).
Proof.
  intros Hf. unfold on_any_message. rewrite Hf. destruct found; [|done].
  destruct (lore_to_inject self !! sid) eqn:Hs; [done|].
  rewrite delete_id by done. by destruct self.
Qed.

(** C8, as stated, fails: an object with the three fields and a number for
    [keywords] is loaded, and the next non-empty message raises. *)
Lemma on_any_message_raises_on_numeric_keywords :
  (on_any_message (plugin_init LoadExamples.numeric_keywords_disk).2
     u8"session" u8"hi").2 = Raise TypeError.
Proof. vm_compute. reflexivity. Qed.

(** C8, amended: with a store loaded from files whose parsed values are
    objects with [keywords] an array of strings (or a string, or an object),
    [on_any_message] returns without raising for every session and text. *)
Theorem on_any_message_never_raises_on_typed_files
    (fs : filesystem) (staged : gmap pystr (list json)) (sid text : pystr) :
  (∀ f e, f ∈ rglob fs → parsed f = Some e → keywords_ok e = true) →
  (on_any_message (Plugin (_load_worldbook fs).1 staged) sid text).2 = Ok ().
Proof.
  intros Hfiles.
  destruct (load_worldbook_invariant (λ e, keywords_ok e = true) fs) as [_ Hty].
  { intros f e Hf He _. by eapply Hfiles. }
  destruct (find_entries_typed _ text Hty) as [found Hfound].
  by rewrite (on_any_message_ok (Plugin _ staged) sid text found).
Qed.

(** C4: after two messages of one session whose texts both match, the
    session has the matches of the second text staged, and the plugin is as
    if the first message had never come. *)
Theorem staging_last_write_wins
    (self : WorldbookPlugin) (sid text1 text2 : pystr) (found1 found2 : list json) :
  find_entries_in_text (manager self) text1 = Ok found1 → found1 ≠ [] →
  find_entries_in_text (manager self) text2 = Ok found2 → found2 ≠ [] →
  let self1 := (on_any_message self sid text1).1 in
  let self2 := (on_any_message self1 sid text2).1 in
  (on_any_message self1 sid text2).2 = Ok () ∧
  lore_to_inject self1 !! sid = Some found1 ∧
  lore_to_inject self2 !! sid = Some found2 ∧
  self2 = (on_any_message self sid text2).1.
Proof.
  intros H1 Hne1 H2 Hne2. simpl.
  rewrite (on_any_message_ok self sid text1 found1 H1).
  rewrite (on_any_message_ok self sid text2 found2 H2).
  rewrite (on_any_message_ok _ sid text2 found2) by done.
  destruct found1 as [|a1 l1]; [done|]. destruct found2 as [|a2 l2]; [done|].
  simpl. split_and!; [done|apply lookup_insert_eq|apply lookup_insert_eq|].
  by rewrite insert_insert_eq.
Qed.

(** ** Generation requests *)

Section InjectionProperties.
Variable repr_str : pystr → pystr.

(** C10: a handler called for session [s] leaves what any other session
    [s'] has staged as it was, whether it returns or raises, and
    [inject_worldbook_context] leaves the store as it was. *)
Theorem handlers_touch_own_session_only
    (self : WorldbookPlugin) (s s' text : pystr) (req : ProviderRequest) :
  s ≠ s' →
  lore_to_inject (on_any_message self s text).1 !! s' = lore_to_inject self !! s' ∧
  lore_to_inject (inject_worldbook_context repr_str self s req).1.1 !! s'
    = lore_to_inject self !! s' ∧
  manager (inject_worldbook_context repr_str self s req).1.1 = manager self.
Proof.
  intros Hne. split_and!.
  - unfold on_any_message.
    destruct (find_entries_in_text _ _) as [[|a l]|]; simpl; [|by rewrite lookup_insert_ne|done].
    destruct (lore_to_inject self !! s); simpl; [by rewrite lookup_delete_ne|done].
  - unfold inject_worldbook_context.
    destruct (lore_to_inject self !! s); [|done].
    destruct (sort_by_content_len _); [|done].
    destruct (format_entries _ _ _); simpl.
    + by rewrite lookup_delete_ne, lookup_insert_ne.
    + by rewrite lookup_insert_ne.
  - unfold inject_worldbook_context.
    destruct (lore_to_inject self !! s); [|done].
    destruct (sort_by_content_len _); [|done].
    by destruct (format_entries _ _ _).
Qed.

(** C1: once [inject_worldbook_context] has returned for a session, nothing
    is staged for it, and calling it again at once changes neither the
    request nor the staging map. *)
Theorem injection_exactly_once
    (self self1 : WorldbookPlugin) (sid : pystr) (req req1 : ProviderRequest) :
  inject_worldbook_context repr_str self sid req = (self1, req1, Ok ()) →
  lore_to_inject self1 !! sid = None ∧
  inject_worldbook_context repr_str self1 sid req1 = (self1, req1, Ok ()).
Proof.
  intros Hinj.
  assert (lore_to_inject self1 !! sid = None) as Hnone.
  { unfold inject_worldbook_context in Hinj.
    destruct (lore_to_inject self !! sid) eqn:Hs; [|by simplify_eq].
    destruct (sort_by_content_len _); [|done].
    destruct (format_entries _ _ _); [|done].
    simplify_eq. simpl. apply lookup_delete_eq. }
  split; [done|]. unfold inject_worldbook_context. by rewrite Hnone.
Qed.

End InjectionProperties.

(** ** The sort *)

Section SortProperties.
Context {A : Type}.
Implicit Types (l : list (nat * A)) (k n : nat) (x : A).

Lemma insert_desc_perm k x l : insert_desc k x l ≡ₚ (k, x) :: l.
Proof.
  induction l as [|[k' y] l IH]; simpl; [done|].
  destruct (k <? k'); [|done]. rewrite IH. apply Permutation_swap.
Qed.

Lemma sort_desc_perm l : sort_desc l ≡ₚ l.
Proof.
  induction l as [|[k x] l IH]; simpl; [done|].
  by rewrite insert_desc_perm, IH.
Qed.

Lemma insert_desc_sorted k x l :
  StronglySorted key_ge l → StronglySorted key_ge (insert_desc k x l).
Proof.
  induction 1 as [|[k' y] l Hs IH Hall]; simpl.
  - by repeat constructor.
  - destruct (Nat.ltb_spec k k') as [Hlt|Hge].
    + constructor; [done|]. rewrite insert_desc_perm.
      constructor; [unfold key_ge; simpl; lia|done].
    + constructor; [by constructor|].
      constructor; [unfold key_ge; simpl; lia|].
      eapply Forall_impl; [exact Hall|]. unfold key_ge. simpl. lia.
Qed.

Lemma sort_desc_sorted l : StronglySorted key_ge (sort_desc l).
Proof.
  induction l as [|[k x] l IH]; simpl; [constructor|].
  by apply insert_desc_sorted.
Qed.

(** Inserting passes only over strictly larger keys, so among the elements
    of any one key the new element stays first. *)
Lemma insert_desc_filter n k x l :
  filter (λ p, p.1 = n) (insert_desc k x l) = filter (λ p, p.1 = n) ((k, x) :: l).
Proof.
  induction l as [|[k' y] l IH]; simpl; [done|].
  destruct (Nat.ltb_spec k k') as [Hlt|Hge]; [|done].
  rewrite (filter_cons _ (k', y)), IH, !filter_cons. simpl.
  repeat case_decide; simplify_eq; try done; lia.
Qed.

Lemma sort_desc_stable n l :
  filter (λ p, p.1 = n) (sort_desc l) = filter (λ p, p.1 = n) l.
Proof.
  induction l as [|[k x] l IH]; simpl; [done|].
  by rewrite insert_desc_filter, !filter_cons, IH.
Qed.

(** A list is determined by being in decreasing key order and by the order
    of its elements within each key: every stable sort by decreasing key
    returns what [sort_desc] returns. *)
Lemma stable_sorted_unique l1 l2 :
  StronglySorted key_ge l1 → StronglySorted key_ge l2 →
  (∀ n, filter (λ p, p.1 = n) l1 = filter (λ p, p.1 = n) l2) →
  l1 = l2.
Proof.
  intros Hs1. revert l2.
  induction Hs1 as [|a l1 Hs1 IH Ha]; intros l2 Hs2 Hf.
  - destruct l2 as [|b l2]; [done|]. specialize (Hf b.1).
    rewrite filter_cons in Hf. by case_decide.
  - destruct Hs2 as [|b l2 Hs2 Hb].
    { specialize (Hf a.1). rewrite filter_cons in Hf. by case_decide. }
    assert (a.1 = b.1) as Hab.
    { apply Nat.le_antisymm.
      - assert (a ∈ filter (λ p, p.1 = a.1) (b :: l2)) as Hin.
        { rewrite <- Hf, filter_cons. case_decide; [left|done]. }
        apply list_elem_of_filter in Hin as [_ [->|Hin]%elem_of_cons]; [done|].
        by apply (proj1 (Forall_forall _ _) Hb a).
      - assert (b ∈ filter (λ p, p.1 = b.1) (a :: l1)) as Hin.
        { rewrite Hf, filter_cons. case_decide; [left|done]. }
        apply list_elem_of_filter in Hin as [_ [->|Hin]%elem_of_cons]; [done|].
        by apply (proj1 (Forall_forall _ _) Ha b). }
    assert (a = b) as ->.
    { specialize (Hf a.1). rewrite !filter_cons in Hf.
      repeat case_decide; try done. by simplify_eq. }
    f_equal. apply IH; [done|]. intros n. specialize (Hf n).
    rewrite !filter_cons in Hf. case_decide; by simplify_eq.
Qed.

(** So [sort_desc] is the stable sort by decreasing key: a list in
    decreasing key order that keeps the order within each key of [l] is
    [sort_desc l]. *)
Lemma sort_desc_characterised l l' :
  StronglySorted key_ge l' →
  (∀ n, filter (λ p, p.1 = n) l' = filter (λ p, p.1 = n) l) →
  l' = sort_desc l.
Proof.
  intros Hs Hf. apply stable_sorted_unique; [done|apply sort_desc_sorted|].
  intros n. by rewrite sort_desc_stable.
Qed.

End SortProperties.

(** ** Sorting the staged records *)

Lemma content_len_ok e : content_ok e = true → content_len e = Ok (content_key e).
Proof.
  unfold content_key, content_len. destruct e as [| | | | | |d]; try done. simpl.
  by destruct (Py.dict_get d s_content) as [[]|].
Qed.

Lemma keyed_by_content_len_ok lore :
  Forall (λ e, content_ok e = true) lore →
  keyed_by_content_len lore = Ok (with_key <$> lore).
Proof.
  induction 1 as [|e lore He _ IH]; simpl; [done|].
  rewrite (content_len_ok e He). unbind. by rewrite IH.
Qed.

Lemma with_key_snd lore : (with_key <$> lore).*2 = lore.
Proof. rewrite <- list_fmap_compose. apply list_fmap_id. Qed.

Lemma keyed_filter n (l : list (nat * json)) :
  Forall (λ p, p.1 = content_key p.2) l →
  filter (λ e, content_key e = n) l.*2 = (filter (λ p, p.1 = n) l).*2.
Proof.
  induction 1 as [|[k e] l Hk _ IH]; [done|]. simpl in Hk. subst k.
  rewrite fmap_cons, !filter_cons. simpl. case_decide; [|done].
  by rewrite fmap_cons, IH.
Qed.

Lemma keyed_sorted (l : list (nat * json)) :
  Forall (λ p, p.1 = content_key p.2) l →
  StronglySorted key_ge l →
  StronglySorted (λ a b, content_key b ≤ content_key a) l.*2.
Proof.
  intros Hk Hs. induction Hs as [|[k e] l Hs IH Hall]; [constructor|].
  apply Forall_cons in Hk as [Hke Hk]. simpl in Hke. subst k.
  rewrite fmap_cons. constructor; [by apply IH|].
  apply Forall_fmap, Forall_forall. intros [k' e'] Hin. simpl.
  pose proof (proj1 (Forall_forall _ _) Hall _ Hin) as Hge.
  pose proof (proj1 (Forall_forall _ _) Hk _ Hin) as Hk'.
  unfold key_ge in Hge. simpl in *. lia.
Qed.

Lemma with_key_keyed lore : Forall (λ p, p.1 = content_key p.2) (with_key <$> lore).
Proof. apply Forall_fmap, Forall_true. done. Qed.

Lemma sort_by_content_len_ok lore :
  Forall (λ e, content_ok e = true) lore →
  sort_by_content_len lore = Ok (sort_desc (with_key <$> lore)).*2.
Proof.
  intros Hok. unfold sort_by_content_len.
  by rewrite (keyed_by_content_len_ok lore Hok).
Qed.

Lemma sorted_entries_perm lore : (sort_desc (with_key <$> lore)).*2 ≡ₚ lore.
Proof. rewrite sort_desc_perm. by rewrite with_key_snd. Qed.

(** The key the code computes is the length of the content. *)
Lemma content_len_chars e :
  content_ok e = true → content_len e = Ok (content_chars e).
Proof.
  unfold content_len. destruct e as [| | | | | |d]; try done. simpl. unbind.
  by destruct (Py.dict_get d s_content) as [[]|].
Qed.

Lemma content_key_chars e : content_ok e = true → content_key e = content_chars e.
Proof. intros He. unfold content_key. by rewrite (content_len_chars e He). Qed.

Lemma sorted_by_agreeing_keys (f g : json → nat) (l : list json) :
  Forall (λ e, f e = g e) l →
  StronglySorted (λ a b, f b ≤ f a) l →
  StronglySorted (λ a b, g b ≤ g a) l.
Proof.
  intros Hfg Hs. induction Hs as [|a l Hs IH Hall]; [constructor|].
  apply Forall_cons in Hfg as [Ha Hfg]. constructor; [by apply IH|].
  apply Forall_forall. intros b Hb.
  pose proof (proj1 (Forall_forall _ _) Hall b Hb) as Hle.
  pose proof (proj1 (Forall_forall _ _) Hfg b Hb) as Hbb.
  cbv beta in *. rewrite <- Ha, <- Hbb. exact Hle.
Qed.

Lemma filter_by_agreeing_keys (f g : json → nat) (n : nat) (l : list json) :
  Forall (λ e, f e = g e) l →
  filter (λ e, f e = n) l = filter (λ e, g e = n) l.
Proof.
  induction 1 as [|a l Ha _ IH]; [done|].
  rewrite !filter_cons, IH. repeat case_decide; try done; congruence.
Qed.

Section SortedInjection.
Variable repr_str : pystr → pystr.

(** C2: before formatting, [inject_worldbook_context] sorts the staged
    records (objects whose content has a length) by decreasing character
    length of [content]: the key the code computes for a record is the
    length of its content; the sorted list is a rearrangement of the staged
    one; the content lengths never increase along it; records of one content
    length are in the order they were staged in; and it is this list that is
    formatted. *)
Theorem injection_sorts_before_formatting
    (self : WorldbookPlugin) (sid : pystr) (req : ProviderRequest)
    (lore : list json) :
  lore_to_inject self !! sid = Some lore →
  Forall (λ e, content_ok e = true) lore →
  ∃ sorted,
    Forall (λ e, content_len e = Ok (content_chars e)) lore ∧
    sort_by_content_len lore = Ok sorted ∧
    sorted ≡ₚ lore ∧
    StronglySorted (λ a b, content_chars b ≤ content_chars a) sorted ∧
    (∀ n, filter (λ e, content_chars e = n) sorted
          = filter (λ e, content_chars e = n) lore) ∧
    inject_worldbook_context repr_str self sid req =
      match format_entries repr_str lore_header sorted with
      | Ok lore_prompt =>
          (Plugin (manager self) (delete sid (lore_to_inject self)),
           Request (lore_prompt ++ NL ++ system_prompt req), Ok ())
      | Raise e =>
          (Plugin (manager self) (<[sid := sorted]> (lore_to_inject self)),
           req, Raise e)
      end.
Proof.
  intros Hstaged Hok. exists (sort_desc (with_key <$> lore)).*2.
  assert (Forall (λ p, p.1 = content_key p.2) (sort_desc (with_key <$> lore)))
    as Hkeyed.
  { rewrite sort_desc_perm. apply with_key_keyed. }
  assert (Forall (λ e, content_key e = content_chars e) lore) as Hchars.
  { eapply Forall_impl; [exact Hok|]. apply content_key_chars. }
  assert (Forall (λ e, content_key e = content_chars e)
            (sort_desc (with_key <$> lore)).*2) as Hchars'.
  { by rewrite sorted_entries_perm. }
  split_and!.
  - eapply Forall_impl; [exact Hok|]. apply content_len_chars.
  - by apply sort_by_content_len_ok.
  - apply sorted_entries_perm.
  - apply (sorted_by_agreeing_keys content_key content_chars _ Hchars').
    apply keyed_sorted; [done|apply sort_desc_sorted].
  - intros n.
    rewrite <- (filter_by_agreeing_keys content_key content_chars n _ Hchars').
    rewrite <- (filter_by_agreeing_keys content_key content_chars n _ Hchars).
    rewrite (keyed_filter n _ Hkeyed), sort_desc_stable.
    rewrite <- (keyed_filter n _ (with_key_keyed lore)). by rewrite with_key_snd.
  - unfold inject_worldbook_context.
    rewrite Hstaged, (sort_by_content_len_ok lore Hok).
    destruct (format_entries _ _ _); [|done]. simpl. by rewrite delete_insert_eq.
Qed.

End SortedInjection.

(** Content lengths 10, 10 and 5 in staged order [A; B; C] stay [A; B; C];
    a longer record staged last moves to the front, [A] still before [B].
    Length is counted in characters. *)
Example sort_by_content_len_example :
  let A := SortExample.A in
  let B := SortExample.B in
  let C := SortExample.C in
  let D := SortExample.D in
  content_len A = Ok 10 ∧ content_len B = Ok 10 ∧ content_len C = Ok 5 ∧
  content_len D = Ok 12 ∧
  sort_by_content_len [A; B; C] = Ok [A; B; C] ∧
  sort_by_content_len [C; A; B; D] = Ok [D; A; B; C].
Proof. vm_compute. done. Qed.

(** ** Formatting the staged records *)

Lemma ends_with_newline_app s t :
  ends_with_newline t → ends_with_newline (s ++ t).
Proof. unfold ends_with_newline. intros H. by rewrite last_app, H. Qed.

Lemma ends_with_newline_NL : ends_with_newline NL.
Proof. done. Qed.

Create HintDb newline.
#[local] Hint Resolve ends_with_newline_app ends_with_newline_NL : newline.

Section FormatProperties.
Variable repr_str : pystr → pystr.

Lemma format_skill_info_object d :
  ∃ line, format_skill_info repr_str (JObj d) = Ok line.
Proof. unfold format_skill_info. simpl. unbind. eauto. Qed.

Lemma format_entry_ok lore_prompt e :
  skill_info_ok e = true →
  ∃ section,
    format_entry repr_str lore_prompt e = Ok (lore_prompt ++ section) ∧
    ends_with_newline section.
Proof.
  destruct e as [| | | | | |d]; try done. unfold format_entry. simpl. unbind.
  destruct (Py.dict_get d s_skill_info) as [info|] eqn:Hinfo.
  - destruct info as [| | | | | |i]; try done. intros _.
    rewrite bool_decide_eq_true_2 by eauto.
    destruct (format_skill_info_object i) as [line ->].
    eexists. split; [by rewrite <- !(assoc_L (++))|]. auto 20 with newline.
  - intros _. rewrite bool_decide_eq_false_2 by (by intros [? ?]).
    eexists. split; [by rewrite <- !(assoc_L (++))|]. auto 20 with newline.
Qed.

Lemma format_entries_ok lore_prompt lore :
  ends_with_newline lore_prompt →
  Forall (λ e, skill_info_ok e = true) lore →
  ∃ sections,
    format_entries repr_str lore_prompt lore = Ok (lore_prompt ++ sections) ∧
    ends_with_newline (lore_prompt ++ sections).
Proof.
  intros Hnl Hok. revert lore_prompt Hnl.
  induction Hok as [|e lore He _ IH]; intros lore_prompt Hnl; simpl.
  - exists []. by rewrite app_nil_r.
  - destruct (format_entry_ok lore_prompt e He) as (sec & -> & Hsec). unbind.
    destruct (IH (lore_prompt ++ sec)) as (secs & -> & Hsecs).
    { by apply ends_with_newline_app. }
    exists (sec ++ secs). by rewrite (assoc_L (++)).
Qed.

Lemma lore_header_newline : ends_with_newline lore_header.
Proof. apply ends_with_newline_app, ends_with_newline_NL. Qed.

Lemma injectable_parts e :
  injectable e = true → content_ok e = true ∧ skill_info_ok e = true.
Proof. unfold injectable. by intros ?%andb_true_iff. Qed.

(** C5: with records staged for the session (objects whose content has a
    length and whose skill_info is an object), the request's system prompt
    becomes the assembled block, a newline, and the previous system prompt;
    the block starts with the header, is the formatting of the sorted
    records, and ends a line, so the newline leaves a blank line; the staged
    entry is consumed. *)
Theorem injection_prepends_block
    (self : WorldbookPlugin) (sid : pystr) (req : ProviderRequest)
    (lore : list json) :
  lore_to_inject self !! sid = Some lore →
  Forall (λ e, injectable e = true) lore →
  ∃ sorted sections,
    sort_by_content_len lore = Ok sorted ∧
    format_entries repr_str lore_header sorted = Ok (lore_header ++ sections) ∧
    ends_with_newline (lore_header ++ sections) ∧
    inject_worldbook_context repr_str self sid req =
      (Plugin (manager self) (delete sid (lore_to_inject self)),
       Request ((lore_header ++ sections) ++ NL ++ system_prompt req),
       Ok ()).
Proof.
  intros Hstaged Hok.
  assert (Forall (λ e, content_ok e = true) lore) as Hc.
  { eapply Forall_impl; [exact Hok|]. by intros e [? _]%injectable_parts. }
  pose proof (sort_by_content_len_ok lore Hc) as Hsort.
  set (sorted := (sort_desc (with_key <$> lore)).*2) in *.
  assert (Forall (λ e, skill_info_ok e = true) sorted) as Hs.
  { unfold sorted. rewrite sorted_entries_perm. eapply Forall_impl; [exact Hok|].
    by intros e [_ ?]%injectable_parts. }
  destruct (format_entries_ok lore_header sorted lore_header_newline Hs)
    as (sections & Hfmt & Hnl).
  exists sorted, sections. split_and!; [done..|].
  unfold inject_worldbook_context. rewrite Hstaged, Hsort, Hfmt. simpl.
  by rewrite delete_insert_eq.
Qed.

End FormatProperties.

(** ** The example of the specification, run *)

Example spec_example_find :
  find_entries_in_text (manager Example.plugin0) u8"我想学火焰技能"
  = Ok [Example.fire_blast].
Proof. vm_compute. reflexivity. Qed.

Example spec_example_injection :
  (inject_worldbook_context Example.plain_repr Example.plugin1 Example.session
     Example.request).1.2
  = Request
      (lore_header ++
       u8"--- 背景知识 ---" ++ NL ++
       u8"宠物：小火龙" ++ NL ++
       u8"技能数据：威力: 110 | PP: 5 | 先手等级: 0 | 属性: 火 | 类型: 特殊" ++ NL ++
       NL ++
       u8"高威力特殊火属性攻击技能" ++ NL ++
       u8"--- 背景知识结束 ---" ++ NL ++
       NL ++
       u8"You are a helpful bot.").
Proof. vm_compute. reflexivity. Qed.

(** ** The theorems at concrete inputs *)

Lemma injection_exactly_once_witness :
  let r := inject_worldbook_context Example.plain_repr Example.plugin1
             Example.session Example.request in
  r = (r.1.1, r.1.2, Ok ()) ∧
  lore_to_inject Example.plugin1 !! Example.session = Some [Example.fire_blast] ∧
  lore_to_inject r.1.1 !! Example.session = None ∧
  inject_worldbook_context Example.plain_repr r.1.1 Example.session r.1.2
  = (r.1.1, r.1.2, Ok ()).
Proof.
  intros r.
  assert (r = (r.1.1, r.1.2, Ok ())) as Hr by (vm_compute; reflexivity).
  split; [exact Hr|]. split; [vm_compute; reflexivity|].
  exact (injection_exactly_once Example.plain_repr Example.plugin1 r.1.1
           Example.session Example.request r.1.2 Hr).
Defined.

Lemma injection_sorts_before_formatting_witness :
  let lore := [SortExample.C; SortExample.A; SortExample.B; SortExample.D] in
  let sid := Example.session in
  let self := Plugin (manager Example.plugin0) {[sid := lore]} in
  let req := Example.request in
  lore_to_inject self !! sid = Some lore ∧
  Forall (λ e, content_ok e = true) lore ∧
  content_chars <$> lore = [5; 10; 10; 12] ∧
  sort_by_content_len lore
    = Ok [SortExample.D; SortExample.A; SortExample.B; SortExample.C] ∧
  ∃ sorted,
    Forall (λ e, content_len e = Ok (content_chars e)) lore ∧
    sort_by_content_len lore = Ok sorted ∧
    sorted ≡ₚ lore ∧
    StronglySorted (λ a b, content_chars b ≤ content_chars a) sorted ∧
    (∀ n, filter (λ e, content_chars e = n) sorted
          = filter (λ e, content_chars e = n) lore) ∧
    inject_worldbook_context Example.plain_repr self sid req =
      match format_entries Example.plain_repr lore_header sorted with
      | Ok lore_prompt =>
          (Plugin (manager self) (delete sid (lore_to_inject self)),
           Request (lore_prompt ++ NL ++ system_prompt req), Ok ())
      | Raise e =>
          (Plugin (manager self) (<[sid := sorted]> (lore_to_inject self)),
           req, Raise e)
      end.
Proof.
  intros lore sid self req.
  assert (lore_to_inject self !! sid = Some lore) as Hs
    by (vm_compute; reflexivity).
  assert (Forall (λ e, content_ok e = true) lore) as Hok by (repeat constructor).
  split_and!; [exact Hs|exact Hok|vm_compute; reflexivity
              |vm_compute; reflexivity|].
  exact (injection_sorts_before_formatting Example.plain_repr self sid req lore
           Hs Hok).
Defined.

Lemma find_entries_exactly_once_witness :
  let self := manager Example.plugin2 in
  let text := u8"我想学火焰技能" in
  store_wf self ∧ store_typed self ∧ text ≠ [] ∧
  ∃ hits : pydict,
    find_entries_in_text self text = Ok hits.*2 ∧
    hits `sublist_of` worldbook_data self ∧
    NoDup hits.*1 ∧
    ∀ name R, (name, R) ∈ hits ↔
              (name, R) ∈ worldbook_data self ∧ has_keyword_in R text.
Proof.
  intros self text.
  assert (store_wf self) as Hwf by (unfold store_wf; by_computation).
  assert (store_typed self) as Hty by (unfold store_typed; by_computation).
  assert (text ≠ []) as Hne by (vm_compute; discriminate).
  split_and!; [exact Hwf|exact Hty|exact Hne|].
  exact (proj1 (find_entries_exactly_once self text Hwf Hty) Hne).
Defined.

(** C3, as stated, fails at the empty text: the empty keyword of the stored
    record is a substring of it, and the record is not in the result. *)
Lemma find_entries_empty_text_counterexample :
  let self := LoadExamples.blank_keyword_store in
  let R := LoadExamples.blank_keyword in
  store_wf self ∧ store_typed self ∧
  (u8"blank", R) ∈ worldbook_data self ∧
  has_keyword_in R [] ∧
  find_entries_in_text self [] = Ok [] ∧
  ¬ (∃ found, find_entries_in_text self [] = Ok found ∧ R ∈ found).
Proof.
  simpl. split_and!.
  - unfold store_wf. by_computation.
  - unfold store_typed. by_computation.
  - left.
  - exists []. split; [left|apply substring_empty].
  - reflexivity.
  - intros (found & [= <-] & Hin). by apply elem_of_nil in Hin.
Qed.

Lemma staging_last_write_wins_witness :
  let self := Example.plugin2 in
  let sid := Example.session in
  let self1 := (on_any_message self sid u8"火焰").1 in
  let self2 := (on_any_message self1 sid u8"水枪").1 in
  (find_entries_in_text (manager self) u8"火焰" = Ok [Example.fire_blast] ∧
   find_entries_in_text (manager self) u8"水枪" = Ok [Example.water_gun]) ∧
  (on_any_message self1 sid u8"水枪").2 = Ok () ∧
  lore_to_inject self1 !! sid = Some [Example.fire_blast] ∧
  lore_to_inject self2 !! sid = Some [Example.water_gun] ∧
  self2 = (on_any_message self sid u8"水枪").1.
Proof.
  intros self sid self1 self2.
  assert (find_entries_in_text (manager self) u8"火焰" = Ok [Example.fire_blast])
    as H1 by (vm_compute; reflexivity).
  assert (find_entries_in_text (manager self) u8"水枪" = Ok [Example.water_gun])
    as H2 by (vm_compute; reflexivity).
  split; [by split|].
  refine (staging_last_write_wins self sid u8"火焰" u8"水枪" _ _ H1 _ H2 _);
    discriminate.
Defined.

Lemma injection_prepends_block_witness :
  let self := Example.plugin1 in
  let lore := [Example.fire_blast] in
  lore_to_inject self !! Example.session = Some lore ∧
  Forall (λ e, injectable e = true) lore ∧
  ∃ sorted sections,
    sort_by_content_len lore = Ok sorted ∧
    format_entries Example.plain_repr lore_header sorted
      = Ok (lore_header ++ sections) ∧
    ends_with_newline (lore_header ++ sections) ∧
    inject_worldbook_context Example.plain_repr self Example.session
      Example.request =
      (Plugin (manager self) (delete Example.session (lore_to_inject self)),
       Request ((lore_header ++ sections) ++ NL ++ system_prompt Example.request),
       Ok ()).
Proof.
  intros self lore.
  assert (lore_to_inject self !! Example.session = Some lore) as Hs
    by (vm_compute; reflexivity).
  assert (Forall (λ e, injectable e = true) lore) as Hok by (repeat constructor).
  split_and!; [exact Hs|exact Hok|].
  exact (injection_prepends_block Example.plain_repr self Example.session
           Example.request lore Hs Hok).
Defined.

Lemma on_any_message_never_raises_on_typed_files_witness :
  (∀ f e, f ∈ rglob Example.disk2 → parsed f = Some e → keywords_ok e = true) ∧
  (on_any_message (Plugin (_load_worldbook Example.disk2).1 ∅)
     Example.session u8"水枪和火焰").2 = Ok ().
Proof.
  assert (∀ f e, f ∈ rglob Example.disk2 → parsed f = Some e →
                 keywords_ok e = true) as Hfiles.
  { intros f e Hf He. simpl in Hf.
    apply elem_of_cons in Hf as [->|Hf]; [by simplify_eq/=|].
    apply list_elem_of_singleton in Hf as ->. by simplify_eq/=. }
  split; [exact Hfiles|].
  exact (on_any_message_never_raises_on_typed_files Example.disk2 ∅
           Example.session u8"水枪和火焰" Hfiles).
Defined.

Lemma empty_keyword_matches_every_text_witness :
  let self := LoadExamples.blank_keyword_store in
  let R := LoadExamples.blank_keyword in
  store_typed self ∧ (u8"blank", R) ∈ worldbook_data self ∧
  JStr [] ∈ keywords_of R ∧ u8"hi" ≠ [] ∧
  ∃ found, find_entries_in_text self u8"hi" = Ok found ∧ R ∈ found.
Proof.
  intros self R.
  assert (store_typed self) as Hty by (unfold store_typed; by_computation).
  assert ((u8"blank", R) ∈ worldbook_data self) as Hin by left.
  assert (JStr [] ∈ keywords_of R) as Hk by left.
  assert (u8"hi" ≠ []) as Hne by (vm_compute; discriminate).
  split_and!; [exact Hty|exact Hin|exact Hk|exact Hne|].
  exact (proj1 (empty_keyword_matches_every_text self u8"hi" u8"blank" R
                  Hty Hin Hk) Hne).
Defined.

Lemma handlers_touch_own_session_only_witness :
  let self :=
    (on_any_message Example.plugin1 Example.other_session u8"烈焰球").1 in
  let s := Example.session in
  let s' := Example.other_session in
  s ≠ s' ∧
  lore_to_inject self !! s' = Some [Example.fire_blast] ∧
  lore_to_inject (on_any_message self s u8"你好").1 !! s' = lore_to_inject self !! s' ∧
  lore_to_inject
    (inject_worldbook_context Example.plain_repr self s Example.request).1.1 !! s'
    = lore_to_inject self !! s' ∧
  manager (inject_worldbook_context Example.plain_repr self s Example.request).1.1
    = manager self.
Proof.
  intros self s s'.
  assert (s ≠ s') as Hne by (vm_compute; discriminate).
  split; [exact Hne|]. split; [vm_compute; reflexivity|].
  exact (handlers_touch_own_session_only Example.plain_repr self s s' u8"你好"
           Example.request Hne).
Defined.

(** * Further properties of the code *)

(** ** Loading, file by file *)

Lemma load_file_store data log f :
  (load_file (data, log) f).1 = store_step data f.
Proof.
  unfold load_file, store_step, accepted. destruct (parsed f) as [entry|]; [|done].
  by destruct (has_core_fields entry) as [[]|].
Qed.

Lemma load_file_log data log f :
  length (load_file (data, log) f).2 = S (length log).
Proof.
  unfold load_file. destruct (parsed f) as [entry|].
  - destruct (has_core_fields entry) as [[]|]; simpl; rewrite length_app; simpl; lia.
  - simpl. rewrite length_app. simpl. lia.
Qed.

Lemma foldl_load_file_store files data log :
  (foldl load_file (data, log) files).1 = foldl store_step data files.
Proof.
  revert data log. induction files as [|f files IH]; intros data log; [done|].
  cbn [foldl]. destruct (load_file (data, log) f) as [data' log'] eqn:E.
  rewrite IH. f_equal. by rewrite <- (load_file_store data log f), E.
Qed.

Lemma foldl_load_file_log files data log :
  length (foldl load_file (data, log) files).2 = length files + length log.
Proof.
  revert data log. induction files as [|f files IH]; intros data log; [done|].
  cbn [foldl]. destruct (load_file (data, log) f) as [data' log'] eqn:E.
  rewrite IH. cbn [length]. pose proof (load_file_log data log f) as Hl. rewrite E in Hl.
  simpl in Hl. lia.
Qed.

Lemma load_worldbook_store fs :
  worldbook_data (_load_worldbook fs).1 = foldl store_step [] (rglob fs).
Proof. by rewrite load_worldbook_data, foldl_load_file_store. Qed.

Lemma dict_get_set_ne d k k' v :
  k ≠ k' → Py.dict_get (Py.dict_set d k v) k' = Py.dict_get d k'.
Proof.
  intros Hne. induction d as [|[k0 v0] d IH]; simpl.
  - by rewrite bool_decide_eq_false_2.
  - destruct (bool_decide (k0 = k)) eqn:Hk0; simpl; [|by rewrite IH].
    apply bool_decide_eq_true in Hk0 as ->. by rewrite !bool_decide_eq_false_2.
Qed.

Lemma foldl_store_step_get files data k :
  Py.dict_get (foldl store_step data files) k =
    match last (contributions k files) with
    | Some e => Some e
    | None => Py.dict_get data k
    end.
Proof.
  revert data. induction files as [|f files IH]; intros data; [done|].
  simpl. rewrite IH. unfold contributions. simpl.
  fold (contributions k files). unfold store_step.
  destruct (last (contributions k files)) as [e|] eqn:Hlast.
  - case_bool_decide; [|by rewrite Hlast].
    destruct (accepted f); [|by rewrite Hlast].
    by rewrite last_cons, Hlast.
  - case_bool_decide as Hk.
    + destruct (accepted f) as [e|]; [|by rewrite Hlast].
      rewrite last_cons, Hlast. subst k. apply dict_get_set.
    + rewrite Hlast. destruct (accepted f); [|done]. by apply dict_get_set_ne.
Qed.

(** X1: when several files have the same stem, the record of the last one
    the loader accepts is the one in the store; a stem no accepted file has
    is not in the store. *)
Theorem load_last_file_wins (fs : filesystem) (k : pystr) :
  Py.dict_get (worldbook_data (_load_worldbook fs).1) k
  = last (contributions k (rglob fs)).
Proof.
  rewrite load_worldbook_store, foldl_store_step_get. simpl.
  by destruct (last _).
Qed.

Lemma foldl_store_step_filter files data :
  foldl store_step data (filter (λ f, is_Some (accepted f)) files)
  = foldl store_step data files.
Proof.
  revert data. induction files as [|f files IH]; intros data; [done|].
  rewrite filter_cons. case_decide as Hacc; simpl; [by rewrite IH|].
  rewrite IH. f_equal. unfold store_step. destruct (accepted f); [|done].
  by destruct Hacc.
Qed.

(** X3: a file that cannot be read or parsed, or whose value fails the test,
    does not stop the load and leaves no trace in the store: the store is the
    one the accepted files alone give; and every discovered file gets one
    diagnostic line. *)
Theorem load_skips_bad_files (fs : filesystem) :
  worldbook_data (_load_worldbook fs).1
  = worldbook_data
      (_load_worldbook
         (FileSystem (data_path_exists fs)
            (filter (λ f, is_Some (accepted f)) (data_path_files fs)))).1 ∧
  length (_load_worldbook fs).2 = length (rglob fs).
Proof.
  split.
  - rewrite !load_worldbook_store. unfold rglob. simpl.
    destruct (data_path_exists fs); [|done]. by rewrite foldl_store_step_filter.
  - unfold _load_worldbook.
    pose proof (foldl_load_file_log (rglob fs) [] []) as Hl.
    destruct (foldl load_file _ _) as [data log]. simpl in *. lia.
Qed.

(** X2: after a load or a reload, every record [find_entries_in_text]
    returns is the parsed value of a file that is in the data directory now
    and that passed the test of the loader. *)
Theorem found_records_come_from_files
    (fs : filesystem) (text : pystr) (found : list json) (e : json) :
  find_entries_in_text (_load_worldbook fs).1 text = Ok found →
  e ∈ found →
  ∃ f, f ∈ rglob fs ∧ parsed f = Some e ∧ has_core_fields e = Ok true.
Proof.
  intros Hfind Hin. destruct text as [|c text].
  { injection Hfind as <-. by apply elem_of_nil in Hin. }
  destruct (scan_entries_from_store _ _ _ _ Hfind Hin) as [name Hname].
  destruct (load_worldbook_invariant
              (λ e, ∃ f, f ∈ rglob fs ∧ parsed f = Some e ∧
                         has_core_fields e = Ok true) fs) as [_ Hall].
  { intros f e' Hf Hp Hc. by exists f. }
  by apply (proj1 (Forall_forall _ _) Hall (name, e)).
Qed.

(** ** Searching a store that holds ill-typed records *)

Lemma scan_entries_app items1 items2 text :
  scan_entries (items1 ++ items2) text =
    found1 ← scan_entries items1 text;
    found2 ← scan_entries items2 text;
    Ok (found1 ++ found2).
Proof.
  induction items1 as [|[n e] items1 IH]; simpl.
  - unbind. by destruct (scan_entries items2 text).
  - rewrite IH. unbind. destruct (entry_matches e text) as [b|]; [|done].
    destruct (scan_entries items1 text) as [found1|]; [|done].
    destruct (scan_entries items2 text) as [found2|]; [|done].
    by destruct b.
Qed.

Lemma scan_entries_typed items text :
  Forall (λ kv, keywords_ok kv.2 = true) items →
  ∃ found, scan_entries items text = Ok found.
Proof.
  intros Hty. destruct (scan_entries_spec items text Hty) as (hits & H & _).
  by exists hits.*2.
Qed.

Lemma entry_matches_error e text x :
  keywords_error e = Some x → entry_matches e text = Raise x.
Proof.
  unfold entry_matches. destruct e as [| | | | | |d]; simpl; try by intros [= <-].
  unbind. by destruct (Py.dict_get d s_keywords) as [[]|]; intros [= <-].
Qed.

(** X4: the first record of the store that is not an object, or whose
    [keywords] is a number, a boolean or null, makes every search of a
    non-empty text raise, [AttributeError] for the former and [TypeError]
    for the latter, whatever the text and the records after it are. *)
Theorem find_raises_at_first_ill_typed
    (self : WorldbookManager) (pre post : pydict) (n text : pystr)
    (e : json) (x : exn) :
  worldbook_data self = pre ++ (n, e) :: post →
  Forall (λ kv, keywords_ok kv.2 = true) pre →
  keywords_error e = Some x →
  text ≠ [] →
  find_entries_in_text self text = Raise x.
Proof.
  intros Hstore Hpre Herr Hne. destruct text as [|c text]; [done|].
  unfold find_entries_in_text. rewrite Hstore, scan_entries_app.
  destruct (scan_entries_typed pre (c :: text) Hpre) as [found ->].
  simpl. unbind. by rewrite (entry_matches_error e (c :: text) x Herr).
Qed.

Lemma keywords_of_iter e ks :
  keywords_of e = ks → ks ≠ [] →
  Py.get e s_keywords (JArr []) ≫= Py.iter = Ok ks.
Proof.
  unfold keywords_of. destruct (_ ≫= _) as [ks'|]; [by intros ->|].
  by intros <-.
Qed.

Lemma any_keyword_in_first_match ks1 k rest text :
  Forall (λ v, is_string v = true) ks1 →
  substring k text →
  any_keyword_in (ks1 ++ JStr k :: rest) text = Ok true.
Proof.
  intros Hs Hk. induction Hs as [|v ks1 Hv _ IH]; simpl; unbind.
  - by rewrite (proj2 (str_contains_spec text k) Hk).
  - destruct v as [| | | |k'| |]; try done. simpl.
    by destruct (Py.str_contains text k').
Qed.

(** X5: the keyword loop stops at the first keyword found in the text: a
    record is returned as soon as one of its keywords matches, and what
    follows that keyword in [keywords] (a number, say) is never looked at. *)
Theorem first_matching_keyword_ends_the_loop
    (self : WorldbookManager) (pre post : pydict) (n text k : pystr)
    (e : json) (ks1 rest : list json) :
  worldbook_data self = pre ++ (n, e) :: post →
  Forall (λ kv, keywords_ok kv.2 = true) pre →
  Forall (λ kv, keywords_ok kv.2 = true) post →
  keywords_of e = ks1 ++ JStr k :: rest →
  Forall (λ v, is_string v = true) ks1 →
  substring k text →
  text ≠ [] →
  ∃ found, find_entries_in_text self text = Ok found ∧ e ∈ found.
Proof.
  intros Hstore Hpre Hpost Hks Hs Hk Hne. destruct text as [|c text]; [done|].
  unfold find_entries_in_text. rewrite Hstore, scan_entries_app.
  destruct (scan_entries_typed pre (c :: text) Hpre) as [found1 ->].
  destruct (scan_entries_typed post (c :: text) Hpost) as [found2 Hf2].
  assert (entry_matches e (c :: text) = Ok true) as Hm.
  { assert (Py.get e s_keywords (JArr []) ≫= Py.iter
            = Ok (ks1 ++ JStr k :: rest)) as Hiter.
    { apply keywords_of_iter; [done|by destruct ks1]. }
    unfold entry_matches. unbind.
    destruct (Py.get e s_keywords (JArr [])) as [kws|]; [|done].
    destruct (Py.iter kws) as [ks|]; [|done]. injection Hiter as ->.
    by apply any_keyword_in_first_match. }
  simpl. unbind. rewrite Hm, Hf2. eexists. split; [done|].
  apply elem_of_app. right. left.
Qed.

Lemma substring_trans k t1 t2 : substring k t1 → substring t1 t2 → substring k t2.
Proof.
  intros (p1 & q1 & ->) (p2 & q2 & ->). exists (p2 ++ p1), (q1 ++ q2).
  by rewrite <- !(assoc_L (++)).
Qed.

Lemma scan_entries_mono items t1 t2 found1 :
  Forall (λ kv, keywords_ok kv.2 = true) items →
  substring t1 t2 →
  scan_entries items t1 = Ok found1 →
  ∃ found2, scan_entries items t2 = Ok found2 ∧ found1 `sublist_of` found2.
Proof.
  intros Hty Hsub. revert found1.
  induction Hty as [|[n e] items He _ IH]; intros found1; simpl.
  - intros [= <-]. by exists [].
  - destruct (entry_matches_spec e t1 He) as (b1 & -> & Hb1).
    destruct (entry_matches_spec e t2 He) as (b2 & -> & Hb2). unbind.
    destruct (scan_entries items t1) as [f1|]; [|done]. intros [= <-].
    destruct (IH f1 eq_refl) as (f2 & -> & Hf). eexists. split; [done|].
    destruct b1.
    + assert (b2 = true) as ->.
      { apply Hb2. destruct (proj1 Hb1 eq_refl) as (k & Hk & Hkt).
        exists k. split; [done|]. by eapply substring_trans. }
      by constructor.
    + destruct b2; [by constructor|done].
Qed.

(** X6: a longer message never loses a match: if one text occurs inside
    another, the records found for the first are found for the second, in
    the same order (the store holding objects whose keywords are strings). *)
Theorem find_entries_monotone
    (self : WorldbookManager) (text1 text2 : pystr) (found1 : list json) :
  store_typed self →
  substring text1 text2 →
  find_entries_in_text self text1 = Ok found1 →
  ∃ found2,
    find_entries_in_text self text2 = Ok found2 ∧ found1 `sublist_of` found2.
Proof.
  intros Hty Hsub Hf1. destruct text1 as [|c1 t1].
  - injection Hf1 as <-. destruct (find_entries_typed self text2 Hty) as [f2 ->].
    exists f2. split; [done|apply sublist_nil_l].
  - destruct text2 as [|c2 t2].
    { destruct Hsub as (p & q & E). by destruct p. }
    by apply (scan_entries_mono _ (c1 :: t1)).
Qed.

Lemma entry_matches_object e text b :
  entry_matches e text = Ok b → is_object e = true.
Proof. by destruct e. Qed.

(** X13: [find_entries_in_text] returns objects only: a value without
    [.get] makes the search raise, it is never handed on to the injector. *)
Theorem find_entries_returns_objects
    (self : WorldbookManager) (text : pystr) (found : list json) :
  find_entries_in_text self text = Ok found →
  Forall (λ e, is_object e = true) found.
Proof.
  destruct text as [|c text]; [by intros [= <-]|].
  unfold find_entries_in_text. generalize (c :: text) as t. intros t.
  revert found. induction (worldbook_data self) as [|[n e] items IH]; simpl.
  - by intros found [= <-].
  - intros found. unbind.
    destruct (entry_matches e t) as [b|] eqn:Hm; [|done].
    destruct (scan_entries items t) as [f|]; [|done]. intros [= <-].
    destruct b; [|by apply IH]. constructor; [|by apply IH].
    by eapply entry_matches_object.
Qed.

(** ** Messages and generation requests together *)

Section HandlerProperties.
Variable repr_str : pystr → pystr.

Lemma inject_staged self sid req lore sorted :
  lore_to_inject self !! sid = Some lore →
  sort_by_content_len lore = Ok sorted →
  inject_worldbook_context repr_str self sid req =
    match format_entries repr_str lore_header sorted with
    | Ok lore_prompt =>
        (Plugin (manager self) (delete sid (lore_to_inject self)),
         Request (lore_prompt ++ NL ++ system_prompt req), Ok ())
    | Raise e =>
        (Plugin (manager self) (<[sid := sorted]> (lore_to_inject self)),
         req, Raise e)
    end.
Proof.
  intros Hs Hsort. unfold inject_worldbook_context. rewrite Hs, Hsort.
  destruct (format_entries _ _ _); [|done]. simpl. by rewrite delete_insert_eq.
Qed.

(** X7: a message that matches nothing (every empty message is one,
    whatever the store holds) removes what the session had staged and
    touches nothing else; the next generation request then passes through
    unchanged, and the same message again changes nothing. *)
Theorem unmatched_message_clears_stage
    (self : WorldbookPlugin) (sid text : pystr) (req : ProviderRequest) :
  find_entries_in_text (manager self) text = Ok [] →
  let self1 := (on_any_message self sid text).1 in
  (on_any_message self sid text).2 = Ok () ∧
  manager self1 = manager self ∧
  lore_to_inject self1 = delete sid (lore_to_inject self) ∧
  inject_worldbook_context repr_str self1 sid req = (self1, req, Ok ()) ∧
  on_any_message self1 sid text = (self1, Ok ()).
Proof.
  intros Hfind. simpl. rewrite (on_any_message_ok self sid text [] Hfind).
  simpl. split_and!; [done..| |].
  - unfold inject_worldbook_context. simpl. by rewrite lookup_delete_eq.
  - rewrite (on_any_message_ok _ sid text []) by done. simpl.
    by rewrite delete_delete_eq.
Qed.

(** X8: with a store of records of the data model, a non-empty message that
    contains a keyword of a stored record, followed by a generation request
    of the same session, puts the block of the found records before the
    system prompt and leaves nothing staged for the session, also nothing
    staged earlier. *)
Theorem message_then_generation_request
    (self : WorldbookPlugin) (sid text name : pystr) (R : json)
    (req : ProviderRequest) :
  Forall (λ kv, lore_record kv.2 = true) (worldbook_data (manager self)) →
  (name, R) ∈ worldbook_data (manager self) →
  has_keyword_in R text →
  text ≠ [] →
  ∃ found sorted sections,
    find_entries_in_text (manager self) text = Ok found ∧
    R ∈ found ∧
    sort_by_content_len found = Ok sorted ∧
    format_entries repr_str lore_header sorted = Ok (lore_header ++ sections) ∧
    inject_worldbook_context repr_str (on_any_message self sid text).1 sid req =
      (Plugin (manager self) (delete sid (lore_to_inject self)),
       Request ((lore_header ++ sections) ++ NL ++ system_prompt req),
       Ok ()).
Proof.
  intros Hrec Hin Hk Hne.
  assert (store_typed (manager self)) as Hty.
  { eapply Forall_impl; [exact Hrec|]. by intros kv (? & _)%lore_record_typed. }
  destruct (scan_entries_spec _ text Hty) as (hits & Hscan & Hsub & Hiff).
  assert (find_entries_in_text (manager self) text = Ok hits.*2) as Hfind.
  { by destruct text. }
  assert (R ∈ hits.*2) as HR.
  { apply list_elem_of_fmap. exists (name, R). split; [done|]. by apply Hiff. }
  assert (Forall (λ e, injectable e = true) hits.*2) as Hinj.
  { apply Forall_forall. intros e (kv & -> & Hkv)%list_elem_of_fmap.
    assert (kv ∈ worldbook_data (manager self)) as Hkv'
      by (by eapply elem_of_sublist).
    apply (proj1 (Forall_forall _ _) Hrec) in Hkv'.
    apply lore_record_typed in Hkv' as (_ & Hc & Hs).
    unfold injectable. by rewrite Hc, Hs. }
  assert (Forall (λ e, content_ok e = true) hits.*2) as Hc.
  { eapply Forall_impl; [exact Hinj|]. by intros e [? _]%injectable_parts. }
  pose proof (sort_by_content_len_ok _ Hc) as Hsort.
  set (sorted := (sort_desc (with_key <$> hits.*2)).*2) in *.
  assert (Forall (λ e, skill_info_ok e = true) sorted) as Hs.
  { unfold sorted. rewrite sorted_entries_perm. eapply Forall_impl; [exact Hinj|].
    by intros e [_ ?]%injectable_parts. }
  destruct (format_entries_ok repr_str lore_header sorted
              lore_header_newline Hs) as (sections & Hfmt & _).
  exists hits.*2, sorted, sections. split_and!; [done..|].
  rewrite (on_any_message_ok self sid text _ Hfind).
  destruct (hits.*2) as [|a l] eqn:Hl; [by apply elem_of_nil in HR|].
  rewrite (inject_staged _ sid req (a :: l) sorted); simpl;
    [|apply lookup_insert_eq|done].
  rewrite Hfmt. by rewrite delete_insert_eq.
Qed.

End HandlerProperties.

(** ** Generation requests over ill-typed staged records *)

Lemma content_len_object d :
  content_len (JObj d) =
    if content_ok (JObj d) then Ok (content_key (JObj d)) else Raise TypeError.
Proof.
  unfold content_key, content_len. simpl. unbind.
  by destruct (Py.dict_get d s_content) as [[]|].
Qed.

Lemma keyed_by_content_len_raises lore :
  Forall (λ e, is_object e = true) lore →
  Exists (λ e, content_ok e = false) lore →
  keyed_by_content_len lore = Raise TypeError.
Proof.
  induction 1 as [|e lore He _ IH]; intros Hex; [by apply Exists_nil in Hex|].
  destruct e as [| | | | | |d]; try done. cbn [keyed_by_content_len].
  rewrite content_len_object. destruct (content_ok (JObj d)) eqn:Hc; [|done].
  apply Exists_cons in Hex as [Hbad|Hex]; [congruence|].
  unbind. by rewrite IH.
Qed.

Lemma keyed_with_key (l : list (nat * json)) :
  Forall (λ p, p.1 = content_key p.2) l → with_key <$> l.*2 = l.
Proof.
  induction 1 as [|[k e] l Hk _ IH]; [done|]. simpl in Hk. subst k.
  rewrite !fmap_cons, IH. done.
Qed.

(** Sorting a sorted list again gives it back. *)
Lemma sort_by_content_len_idem lore :
  Forall (λ e, content_ok e = true) lore →
  sort_by_content_len (sort_desc (with_key <$> lore)).*2
  = Ok (sort_desc (with_key <$> lore)).*2.
Proof.
  intros Hok. set (L := sort_desc (with_key <$> lore)).
  assert (Forall (λ p, p.1 = content_key p.2) L) as Hkeyed.
  { unfold L. rewrite sort_desc_perm. apply with_key_keyed. }
  rewrite sort_by_content_len_ok.
  - rewrite (keyed_with_key L Hkeyed). do 2 f_equal. symmetry.
    apply sort_desc_characterised; [apply sort_desc_sorted|done].
  - unfold L. by rewrite sorted_entries_perm.
Qed.

Section InjectionDetails.
Variable repr_str : pystr → pystr.

Lemma format_entry_bad_skill_info lore_prompt d :
  skill_info_ok (JObj d) = false →
  format_entry repr_str lore_prompt (JObj d) = Raise AttributeError.
Proof.
  unfold format_entry. simpl. unbind.
  destruct (Py.dict_get d s_skill_info) as [info|] eqn:Hinfo; [|done].
  rewrite bool_decide_eq_true_2 by eauto. by destruct info.
Qed.

Lemma format_entries_raises lore_prompt lore :
  Forall (λ e, is_object e = true) lore →
  Exists (λ e, skill_info_ok e = false) lore →
  format_entries repr_str lore_prompt lore = Raise AttributeError.
Proof.
  intros Hobj. revert lore_prompt.
  induction Hobj as [|e lore He _ IH]; intros lore_prompt Hex;
    [by apply Exists_nil in Hex|].
  destruct e as [| | | | | |d]; try done. cbn [format_entries].
  destruct (skill_info_ok (JObj d)) eqn:Hs.
  - destruct (format_entry_ok repr_str lore_prompt (JObj d) Hs) as (sec & -> & _).
    unbind. apply IH. apply Exists_cons in Hex as [Hbad|Hex]; [congruence|done].
  - by rewrite format_entry_bad_skill_info.
Qed.

(** X9: when a staged record has a [content] that has no length (a number,
    a boolean, null), the generation request raises [TypeError] before
    anything has moved: the request, the staged list and its order are as
    they were. *)
Theorem injection_rejects_unsized_content
    (self : WorldbookPlugin) (sid : pystr) (req : ProviderRequest)
    (lore : list json) :
  lore_to_inject self !! sid = Some lore →
  Forall (λ e, is_object e = true) lore →
  Exists (λ e, content_ok e = false) lore →
  inject_worldbook_context repr_str self sid req = (self, req, Raise TypeError).
Proof.
  intros Hs Hobj Hbad. unfold inject_worldbook_context, sort_by_content_len.
  by rewrite Hs, (keyed_by_content_len_raises lore Hobj Hbad).
Qed.

(** X10: when the staged records can be sorted and one of them has a
    [skill_info] that is not an object, the generation request raises
    [AttributeError] while formatting: the request is as it was, the staged
    list stays staged, now in sorted order, and a second request meets the
    same error and changes nothing more. *)
Theorem injection_rejects_bad_skill_info
    (self : WorldbookPlugin) (sid : pystr) (req : ProviderRequest)
    (lore : list json) :
  lore_to_inject self !! sid = Some lore →
  Forall (λ e, content_ok e = true) lore →
  Exists (λ e, skill_info_ok e = false) lore →
  ∃ sorted,
    sort_by_content_len lore = Ok sorted ∧
    let self1 :=
      Plugin (manager self) (<[sid := sorted]> (lore_to_inject self)) in
    inject_worldbook_context repr_str self sid req
      = (self1, req, Raise AttributeError) ∧
    inject_worldbook_context repr_str self1 sid req
      = (self1, req, Raise AttributeError).
Proof.
  intros Hs Hok Hbad.
  pose proof (sort_by_content_len_ok lore Hok) as Hsort.
  pose proof (sort_by_content_len_idem lore Hok) as Hidem.
  set (sorted := (sort_desc (with_key <$> lore)).*2) in *.
  assert (format_entries repr_str lore_header sorted = Raise AttributeError)
    as Hfmt.
  { apply format_entries_raises.
    - unfold sorted. rewrite sorted_entries_perm.
      eapply Forall_impl; [exact Hok|]. intros e He. by destruct e.
    - apply Exists_exists in Hbad as (e & He & Hse). apply Exists_exists.
      exists e. split; [|done]. unfold sorted. by rewrite sorted_entries_perm. }
  exists sorted. split; [done|]. simpl. split.
  - by rewrite (inject_staged repr_str self sid req lore sorted Hs Hsort), Hfmt.
  - rewrite (inject_staged repr_str _ sid req sorted sorted); simpl;
      [|apply lookup_insert_eq|done].
    by rewrite Hfmt, insert_insert_eq.
Qed.

(** ** The block, section by section *)

Lemma format_entry_prefix lore_prompt e :
  format_entry repr_str lore_prompt e =
    section ← format_entry repr_str [] e; Ok (lore_prompt ++ section).
Proof.
  destruct e as [| | | | | |d]; try reflexivity.
  unfold format_entry, Py.get, Py.contains, Py.getitem. unbind.
  destruct (Py.dict_get d s_skill_info) as [info|].
  - rewrite bool_decide_eq_true_2 by eauto.
    destruct (format_skill_info repr_str info) as [line|]; [|reflexivity].
    cbv beta iota zeta. by rewrite !app_nil_l, <- !(assoc_L (++)).
  - rewrite bool_decide_eq_false_2 by (by intros [? ?]).
    cbv beta iota zeta. by rewrite !app_nil_l, <- !(assoc_L (++)).
Qed.

(** X11: the text the formatting loop appends is the concatenation, in
    order, of the sections of the records, each formatted on its own; the
    section of a record depends neither on the text before it nor on the
    other records; and the loop raises what the first failing record
    raises. *)
Theorem format_entries_by_sections (lore_prompt : pystr) (lore : list json) :
  format_entries repr_str lore_prompt lore =
    sections ← mapM (format_entry repr_str []) lore;
    Ok (lore_prompt ++ concat sections).
Proof.
  revert lore_prompt. induction lore as [|e lore IH]; intros lore_prompt.
  - simpl. unbind. by rewrite app_nil_r.
  - cbn [format_entries mapM]. rewrite format_entry_prefix. unbind.
    destruct (format_entry repr_str [] e) as [sec|]; [|done].
    rewrite IH. unbind.
    destruct (mapM (format_entry repr_str []) lore) as [secs|]; [|done].
    simpl. by rewrite (assoc_L (++)).
Qed.

(** X12: what is staged survives a reload of the store: after
    [reload_worldbook], whatever the data directory holds now, a generation
    request gives the same request, the same outcome and the same staging
    map as it would have given before the reload. *)
Theorem staged_lore_survives_reload
    (fs : filesystem) (self : WorldbookPlugin) (sid : pystr)
    (req : ProviderRequest) :
  let self' := (reload_worldbook fs self).1.2 in
  let before := inject_worldbook_context repr_str self sid req in
  let after := inject_worldbook_context repr_str self' sid req in
  lore_to_inject self' = lore_to_inject self ∧
  after.1.2 = before.1.2 ∧
  after.2 = before.2 ∧
  lore_to_inject after.1.1 = lore_to_inject before.1.1.
Proof.
  simpl. unfold inject_worldbook_context. simpl.
  destruct (lore_to_inject self !! sid) as [lore|]; [|done].
  destruct (sort_by_content_len lore) as [sorted|]; [|done].
  by destruct (format_entries repr_str lore_header sorted).
Qed.

End InjectionDetails.

(** ** The further properties at concrete inputs *)

(** Two files of one stem: the later one is in the store. *)
Example load_last_file_wins_example :
  let fs := FileSystem true
    [JsonFile u8"a" u8"a.json" (Some Example.fire_blast);
     JsonFile u8"b" u8"b.json" None;
     JsonFile u8"a" u8"a.json" (Some Example.water_gun);
     JsonFile u8"a" u8"a.json" (Some (JInt 1))] in
  worldbook_data (_load_worldbook fs).1 = [(u8"a", Example.water_gun)] ∧
  (_load_worldbook fs).2
  = [Loaded u8"a"; LoadFailed u8"b.json"; Loaded u8"a"; LoadFailed u8"a.json"].
Proof. vm_compute. done. Qed.

Lemma found_records_come_from_files_witness :
  let fs := Example.disk2 in
  find_entries_in_text (_load_worldbook fs).1 u8"火焰" = Ok [Example.fire_blast] ∧
  Example.fire_blast ∈ [Example.fire_blast] ∧
  ∃ f, f ∈ rglob fs ∧ parsed f = Some Example.fire_blast ∧
       has_core_fields Example.fire_blast = Ok true.
Proof.
  intros fs.
  assert (find_entries_in_text (_load_worldbook fs).1 u8"火焰"
          = Ok [Example.fire_blast]) as Hf by (vm_compute; reflexivity).
  assert (Example.fire_blast ∈ [Example.fire_blast]) as Hin by left.
  split_and!; [exact Hf|exact Hin|].
  exact (found_records_come_from_files fs u8"火焰" _ _ Hf Hin).
Defined.

Lemma find_raises_at_first_ill_typed_witness :
  let self := EdgeExamples.broken_store in
  let pre := [(u8"fire_blast", Example.fire_blast)] in
  let post := [(u8"water_gun", Example.water_gun)] in
  worldbook_data self = pre ++ (u8"odd", LoadExamples.numeric_keywords) :: post ∧
  Forall (λ kv, keywords_ok kv.2 = true) pre ∧
  keywords_error LoadExamples.numeric_keywords = Some TypeError ∧
  u8"水枪" ≠ [] ∧
  find_entries_in_text self u8"水枪" = Raise TypeError.
Proof.
  intros self pre post.
  assert (worldbook_data self
          = pre ++ (u8"odd", LoadExamples.numeric_keywords) :: post) as Hst
    by reflexivity.
  assert (Forall (λ kv, keywords_ok kv.2 = true) pre) as Hpre
    by (repeat constructor).
  assert (keywords_error LoadExamples.numeric_keywords = Some TypeError) as He
    by (vm_compute; reflexivity).
  assert (u8"水枪" ≠ []) as Hne by (vm_compute; discriminate).
  split_and!; [exact Hst|exact Hpre|exact He|exact Hne|].
  exact (find_raises_at_first_ill_typed self pre post u8"odd" u8"水枪"
           LoadExamples.numeric_keywords TypeError Hst Hpre He Hne).
Defined.

Lemma first_matching_keyword_ends_the_loop_witness :
  let self := EdgeExamples.mixed_store in
  let pre := [(u8"fire_blast", Example.fire_blast)] in
  let post := [(u8"water_gun", Example.water_gun)] in
  let e := EdgeExamples.mixed_keywords in
  worldbook_data self = pre ++ (u8"mixed", e) :: post ∧
  Forall (λ kv, keywords_ok kv.2 = true) pre ∧
  Forall (λ kv, keywords_ok kv.2 = true) post ∧
  keywords_of e = [] ++ JStr u8"火" :: [JInt 5] ∧
  substring u8"火" u8"火山" ∧
  find_entries_in_text self u8"水" = Raise TypeError ∧
  ∃ found, find_entries_in_text self u8"火山" = Ok found ∧ e ∈ found.
Proof.
  intros self pre post e.
  assert (worldbook_data self = pre ++ (u8"mixed", e) :: post) as Hst
    by reflexivity.
  assert (Forall (λ kv, keywords_ok kv.2 = true) pre) as Hpre
    by (repeat constructor).
  assert (Forall (λ kv, keywords_ok kv.2 = true) post) as Hpost
    by (repeat constructor).
  assert (keywords_of e = [] ++ JStr u8"火" :: [JInt 5]) as Hks
    by (vm_compute; reflexivity).
  assert (substring u8"火" u8"火山") as Hsub
    by (apply str_contains_spec; vm_compute; reflexivity).
  assert (u8"火山" ≠ []) as Hne by (vm_compute; discriminate).
  split_and!; [exact Hst|exact Hpre|exact Hpost|exact Hks|exact Hsub| |].
  - vm_compute. reflexivity.
  - exact (first_matching_keyword_ends_the_loop self pre post u8"mixed" u8"火山"
             u8"火" e [] [JInt 5] Hst Hpre Hpost Hks (Forall_nil_2 _) Hsub Hne).
Defined.

Lemma find_entries_monotone_witness :
  let self := manager Example.plugin2 in
  store_typed self ∧
  substring u8"火焰" u8"火焰和水枪" ∧
  find_entries_in_text self u8"火焰" = Ok [Example.fire_blast] ∧
  ∃ found2,
    find_entries_in_text self u8"火焰和水枪" = Ok found2 ∧
    [Example.fire_blast] `sublist_of` found2.
Proof.
  intros self.
  assert (store_typed self) as Hty by (unfold store_typed; by_computation).
  assert (substring u8"火焰" u8"火焰和水枪") as Hsub
    by (apply str_contains_spec; vm_compute; reflexivity).
  assert (find_entries_in_text self u8"火焰" = Ok [Example.fire_blast]) as Hf
    by (vm_compute; reflexivity).
  split_and!; [exact Hty|exact Hsub|exact Hf|].
  exact (find_entries_monotone self u8"火焰" u8"火焰和水枪" _ Hty Hsub Hf).
Defined.

Lemma find_entries_returns_objects_witness :
  let self := EdgeExamples.mixed_store in
  find_entries_in_text self u8"火焰"
    = Ok [Example.fire_blast; EdgeExamples.mixed_keywords] ∧
  Forall (λ e, is_object e = true)
    [Example.fire_blast; EdgeExamples.mixed_keywords].
Proof.
  intros self.
  assert (find_entries_in_text self u8"火焰"
          = Ok [Example.fire_blast; EdgeExamples.mixed_keywords]) as Hf
    by (vm_compute; reflexivity).
  split; [exact Hf|].
  exact (find_entries_returns_objects self u8"火焰" _ Hf).
Defined.

Lemma unmatched_message_clears_stage_witness :
  let self := EdgeExamples.staged_over_broken_store in
  let sid := Example.session in
  let req := Example.request in
  let self1 := (on_any_message self sid []).1 in
  find_entries_in_text (manager self) [] = Ok [] ∧
  lore_to_inject self !! sid = Some [Example.fire_blast] ∧
  (on_any_message self sid u8"你好").2 = Raise TypeError ∧
  (on_any_message self sid []).2 = Ok () ∧
  manager self1 = manager self ∧
  lore_to_inject self1 = delete sid (lore_to_inject self) ∧
  inject_worldbook_context Example.plain_repr self1 sid req = (self1, req, Ok ()) ∧
  on_any_message self1 sid [] = (self1, Ok ()).
Proof.
  intros self sid req self1.
  assert (find_entries_in_text (manager self) [] = Ok []) as Hf by reflexivity.
  split_and!; [exact Hf|vm_compute; reflexivity|vm_compute; reflexivity|..];
    apply (unmatched_message_clears_stage Example.plain_repr self sid [] req Hf).
Defined.

Lemma message_then_generation_request_witness :
  let self := Example.plugin2 in
  let sid := Example.session in
  let req := Example.request in
  let text := u8"水枪怎么样" in
  let R := Example.water_gun in
  Forall (λ kv, lore_record kv.2 = true) (worldbook_data (manager self)) ∧
  (u8"water_gun", R) ∈ worldbook_data (manager self) ∧
  has_keyword_in R text ∧
  text ≠ [] ∧
  ∃ found sorted sections,
    find_entries_in_text (manager self) text = Ok found ∧
    R ∈ found ∧
    sort_by_content_len found = Ok sorted ∧
    format_entries Example.plain_repr lore_header sorted
      = Ok (lore_header ++ sections) ∧
    inject_worldbook_context Example.plain_repr
      (on_any_message self sid text).1 sid req =
      (Plugin (manager self) (delete sid (lore_to_inject self)),
       Request ((lore_header ++ sections) ++ NL ++ system_prompt req),
       Ok ()).
Proof.
  intros self sid req text R.
  assert (Forall (λ kv, lore_record kv.2 = true) (worldbook_data (manager self)))
    as Hrec by (by_computation).
  assert ((u8"water_gun", R) ∈ worldbook_data (manager self)) as Hin
    by (right; left).
  assert (has_keyword_in R text) as Hk.
  { exists (u8"水枪"). split; [left|]. apply str_contains_spec. vm_compute.
    reflexivity. }
  assert (text ≠ []) as Hne by (vm_compute; discriminate).
  split_and!; [exact Hrec|exact Hin|exact Hk|exact Hne|].
  exact (message_then_generation_request Example.plain_repr self sid text
           u8"water_gun" R req Hrec Hin Hk Hne).
Defined.

Lemma injection_rejects_unsized_content_witness :
  let sid := Example.session in
  let lore := [Example.fire_blast; EdgeExamples.numeric_content] in
  let self := Plugin (manager Example.plugin0) {[sid := lore]} in
  let req := Example.request in
  lore_to_inject self !! sid = Some lore ∧
  Forall (λ e, is_object e = true) lore ∧
  Exists (λ e, content_ok e = false) lore ∧
  inject_worldbook_context Example.plain_repr self sid req
    = (self, req, Raise TypeError).
Proof.
  intros sid lore self req.
  assert (lore_to_inject self !! sid = Some lore) as Hs
    by (vm_compute; reflexivity).
  assert (Forall (λ e, is_object e = true) lore) as Hobj by (repeat constructor).
  assert (Exists (λ e, content_ok e = false) lore) as Hbad
    by (right; left; reflexivity).
  split_and!; [exact Hs|exact Hobj|exact Hbad|].
  exact (injection_rejects_unsized_content Example.plain_repr self sid req lore
           Hs Hobj Hbad).
Defined.

Lemma injection_rejects_bad_skill_info_witness :
  let sid := Example.session in
  let lore := [EdgeExamples.text_skill_info; Example.fire_blast] in
  let self := Plugin (manager Example.plugin0) {[sid := lore]} in
  let req := Example.request in
  lore_to_inject self !! sid = Some lore ∧
  Forall (λ e, content_ok e = true) lore ∧
  Exists (λ e, skill_info_ok e = false) lore ∧
  sort_by_content_len lore
    = Ok [Example.fire_blast; EdgeExamples.text_skill_info] ∧
  ∃ sorted,
    sort_by_content_len lore = Ok sorted ∧
    let self1 :=
      Plugin (manager self) (<[sid := sorted]> (lore_to_inject self)) in
    inject_worldbook_context Example.plain_repr self sid req
      = (self1, req, Raise AttributeError) ∧
    inject_worldbook_context Example.plain_repr self1 sid req
      = (self1, req, Raise AttributeError).
Proof.
  intros sid lore self req.
  assert (lore_to_inject self !! sid = Some lore) as Hs
    by (vm_compute; reflexivity).
  assert (Forall (λ e, content_ok e = true) lore) as Hok by (repeat constructor).
  assert (Exists (λ e, skill_info_ok e = false) lore) as Hbad
    by (left; reflexivity).
  split_and!; [exact Hs|exact Hok|exact Hbad|vm_compute; reflexivity|].
  exact (injection_rejects_bad_skill_info Example.plain_repr self sid req lore
           Hs Hok Hbad).
Defined.
